(** * RAVEN reduced-order-model facade: a shallow embedding

    The development follows two source files of the repository:

    - [framework/Models/ROM.py], the class [ROM] (module [ROM] below):
      [evaluate], [train], [reset], [__getstate__], [__setstate__], and
      further on [confidence], [reseed], [setAdditionalParams], [_copyModel],
      [convergence], [_crossValidationScore] and [_checkCV];
    - [framework/SupervisedLearning/ScikitLearn/DiscriminantAnalysis/
      LinearDiscriminantAnalysis.py] (module [LinearDiscriminantAnalysis]).

    Python objects are mutable; here every method is a function on the value
    of [self].  A method that can raise returns a [result]; [train], which
    mutates [self] step by step and can raise half-way, runs in a small
    state-and-exception monad that keeps the state reached when the exception
    left the method. *)

From stdpp Require Import gmap strings list fin_maps.
From Stdlib Require Import ZArith.

Set Default Proof Using "Type".
Local Open Scope string_scope.
Local Open Scope list_scope.

(** ** Exceptions *)

(** The Python exception classes that the two source files can surface. *)
Inductive pyexc :=
  | RuntimeError | IOError | IndexError | KeyError
  | AttributeError | AssertionError
  | OtherException (cls : string).

(** What the exception says.  The first six are the texts handed to
    [raiseAnError] in ROM.py, with the run-time pieces they are built from. *)
Inductive message :=
  | NotLoaded (rom : string)        (* 'ROM "', name, '" has not been loaded yet!  Use an IOStep to load it.' *)
  | NotTrained (rom : string)       (* "ROM ", name, " has not been trained yet and, consequentially, can not be evaluated!" *)
  | NotSynchronized (data : string) (* "The data provided by the data object", name, "is not synchonized!" ... *)
  | PivotNotPresent (pivot : string)(* 'The pivot parameter "{}" is not present in the training set.' *)
  | PivotNotAList (pivot : string)  (* 'The pivot parameter "{}" is not a list.' *)
  | TrainingSetEmpty                (* "the training set is empty!" *)
  | IndexOutOfRange                 (* list index out of range *)
  | MissingKey (key : string)       (* KeyError: key *)
  | MissingAttribute (attr : string)(* AttributeError *)
  | AssertFailed
  | OtherMessage (text : string).

Record exn := Raised { exn_class : pyexc; exn_message : message }.

(** Modelled from the spec: the error taxonomy of section 7 (the code only has
    Python exception classes).  StateError covers evaluate-before-train and
    evaluate-on-unloaded-placeholder; DataConsistencyError covers a missing
    pivot variable, misaligned time indices and an empty training set. *)
Inductive error_kind :=
  | ConfigurationError | StateError | DataConsistencyError
  | UnsupportedOperationError | Unclassified.

Definition kind_of (e : exn) : error_kind :=
  match exn_class e, exn_message e with
  | RuntimeError, NotLoaded _ => StateError
  | RuntimeError, NotTrained _ => StateError
  | IOError, NotSynchronized _ => DataConsistencyError
  | IOError, PivotNotPresent _ => DataConsistencyError
  | IOError, PivotNotAList _ => DataConsistencyError
  | IOError, TrainingSetEmpty => DataConsistencyError
  | _, _ => Unclassified
  end.

(** ** Results of calls that can raise *)

Inductive result (A : Type) :=
  | Returns (a : A)
  | Raises (e : exn).
Arguments Returns {A} a.
Arguments Raises {A} e.

Global Instance result_ret : MRet result := λ A a, Returns a.
Global Instance result_bind : MBind result := λ A B f r,
  match r with
  | Returns a => f a
  | Raises e => Raises e
  end.

Global Instance result_fmap : FMap result := λ A B f r,
  match r with
  | Returns a => Returns (f a)
  | Raises e => Raises e
  end.

Definition returned {A} (r : result A) : bool :=
  match r with Returns _ => true | Raises _ => false end.

(** Python's [l[i]] for a list, negative indices counting from the end:
    the position that index [i] names in a list of [len] elements. *)
Definition py_position (len : nat) (i : Z) : option nat :=
  let n := Z.of_nat len in
  let j := if (i <? 0)%Z then (n + i)%Z else i in
  if ((0 <=? j) && (j <? n))%Z then Some (Z.to_nat j) else None.

Definition py_index {A} (l : list A) (i : Z) : result A :=
  match py_position (length l) i ≫= (l !!.) with
  | Some x => Returns x
  | None => Raises (Raised IndexError IndexOutOfRange)
  end.

(** [d[k]] and [d.pop(k)] / [del d[k]] on a Python dict. *)
Definition dict_get {V} (k : string) (d : gmap string V) : result V :=
  match d !! k with
  | Some v => Returns v
  | None => Raises (Raised KeyError (MissingKey k))
  end.

Definition dict_pop {V} (k : string) (d : gmap string V)
    : result (V * gmap string V) :=
  match d !! k with
  | Some v => Returns (v, delete k d)
  | None => Raises (Raised KeyError (MissingKey k))
  end.

(** ** Data *)

(** A value of a training set or of a request: a flat numeric sequence (a
    numpy array) or a Python [list] holding one sequence per realization.
    [train] tells them apart with [type(x).__name__ == 'list']. *)
Inductive value (scalar : Type) :=
  | Flat (xs : list scalar)
  | Nested (hs : list (list scalar)).
Arguments Flat {scalar} xs.
Arguments Nested {scalar} hs.

Definition is_list {scalar} (x : value scalar) : bool :=
  match x with Nested _ => true | Flat _ => false end.

(** A numpy array as a backend returns it: its shape and its elements in
    row-major order.  A scalar has shape []. *)
Record ndarray (scalar : Type) := NdArray {
  shape : list nat;
  ravel : list scalar
}.
Arguments NdArray {scalar} shape ravel.
Arguments shape {scalar} _.
Arguments ravel {scalar} _.

(** [np.append(a, b)] without an axis: both flattened, then concatenated. *)
Definition np_append {scalar} (a b : ndarray scalar) : ndarray scalar :=
  let xs := ravel a ++ ravel b in NdArray [length xs] xs.

(** [np.atleast_1d(a)]: a scalar becomes a one-element array. *)
Definition np_atleast_1d {scalar} (a : ndarray scalar) : ndarray scalar :=
  match shape a with
  | [] => NdArray [1] (ravel a)
  | _ => a
  end.

(** Training sets and requests in internal form, and evaluation results. *)
Abbreviation dict scalar := (gmap string (value scalar)).
Abbreviation results scalar := (gmap string (ndarray scalar)).

(** What [train] and [evaluate] are handed: a dict or a data object. *)
Inductive input (scalar DataObject : Type) :=
  | InDict (d : dict scalar)
  | InData (obj : DataObject).
Arguments InDict {scalar DataObject} d.
Arguments InData {scalar DataObject} obj.

(** What [mathUtils.historySnapShoots] hands back: ROM.py asserts that it is a
    list before using it. *)
Inductive snapshots (scalar : Type) :=
  | SnapList (slices : list (dict scalar))
  | SnapOther (text : string).
Arguments SnapList {scalar} slices.
Arguments SnapOther {scalar} text.

(** ** Collaborators *)

(** The interface of a supervised-learning instance as ROM.py uses it.
    [train] mutates the instance and can raise, so it returns the outcome
    together with the instance as the call left it; [run] only reads and can
    raise; [reset] and [setAssembledObjects] update the instance. *)
Class Backend (scalar Assembled B : Type) := {
  b_train : dict scalar → B → result unit * B;
  b_run : B → dict scalar → result (results scalar);
  b_reset : B → B;
  b_setAssembledObjects : gmap string (list Assembled) → B → B
}.

(** The framework functions ROM.py calls and that live in other files:
    the data object's [type], [name] and [checkIndexAlignment], the inherited
    [_inputToInternal] and [_replaceVariablesNamesWithAliasSystem],
    [mathUtils.historySnapShoots] and the factory's [returnInstance]. *)
Class Host (scalar DataObject B : Type) := {
  typeOf : DataObject → string;
  nameOf : DataObject → string;
  checkIndexAlignment : DataObject → string → bool;
  inputToInternal : input scalar DataObject → result (dict scalar);
  replaceVariablesNamesWithAliasSystem : dict scalar → dict scalar;
  historySnapShoots : dict scalar → nat → snapshots scalar;
  returnInstance : string → result B
}.

(** * The class ROM *)

Module ROM.

Section Facade.
Context {scalar DataObject Assembled B : Type}.
Context `{!Backend scalar Assembled B, !Host scalar DataObject B}.

(** The attributes of a [ROM] object that the five methods read or write:
    those of [__init__] (lines 110-130) that they use, [name], [subType] and
    [assemblerDict], which the base classes set, and [trainingSet], which
    [__init__] does not set, hence the option.  The instances in
    [supervisedContainer] are held by value: [copy.deepcopy] of an instance
    is the instance. *)
Record obj := Obj {
  name : string;
  subType : string;
  amITrained : bool;
  pickled : bool;
  pivotParameterId : string;
  canHandleDynamicData : bool;
  isADynamicModel : bool;
  supervisedContainer : list B;
  historySteps : list scalar;
  segment : bool;
  seed : option Z;
  assemblerDict : gmap string (list Assembled);
  trainingSet : option (dict scalar)
}.

Definition set_amITrained (v : bool) (self : obj) : obj :=
  Obj (name self) (subType self) v (pickled self) (pivotParameterId self)
      (canHandleDynamicData self) (isADynamicModel self)
      (supervisedContainer self) (historySteps self) (segment self)
      (seed self) (assemblerDict self) (trainingSet self).

Definition set_isADynamicModel (v : bool) (self : obj) : obj :=
  Obj (name self) (subType self) (amITrained self) (pickled self)
      (pivotParameterId self) (canHandleDynamicData self) v
      (supervisedContainer self) (historySteps self) (segment self)
      (seed self) (assemblerDict self) (trainingSet self).

Definition set_supervisedContainer (v : list B) (self : obj) : obj :=
  Obj (name self) (subType self) (amITrained self) (pickled self)
      (pivotParameterId self) (canHandleDynamicData self)
      (isADynamicModel self) v (historySteps self) (segment self)
      (seed self) (assemblerDict self) (trainingSet self).

Definition set_historySteps (v : list scalar) (self : obj) : obj :=
  Obj (name self) (subType self) (amITrained self) (pickled self)
      (pivotParameterId self) (canHandleDynamicData self)
      (isADynamicModel self) (supervisedContainer self) v (segment self)
      (seed self) (assemblerDict self) (trainingSet self).

Definition set_seed (v : option Z) (self : obj) : obj :=
  Obj (name self) (subType self) (amITrained self) (pickled self)
      (pivotParameterId self) (canHandleDynamicData self)
      (isADynamicModel self) (supervisedContainer self) (historySteps self)
      (segment self) v (assemblerDict self) (trainingSet self).

Definition set_trainingSet (v : option (dict scalar)) (self : obj) : obj :=
  Obj (name self) (subType self) (amITrained self) (pickled self)
      (pivotParameterId self) (canHandleDynamicData self)
      (isADynamicModel self) (supervisedContainer self) (historySteps self)
      (segment self) (seed self) (assemblerDict self) v.

(** *** evaluate (ROM.py, lines 389-415) *)

(** Lines 410-411: every key already in [resultsDict] gets the slice's value
    for that key appended; a key the slice lacks is a KeyError. *)
Definition append_slice (resultsDict sliceEvaluation : results scalar)
    : result (results scalar) :=
  match filter (λ k, sliceEvaluation !! k = None) (elements (dom resultsDict)) with
  | k :: _ => Raises (Raised KeyError (MissingKey k))
  | [] =>
      Returns (map_imap (λ k v, np_append v <$> sliceEvaluation !! k) resultsDict)
  end.

(** Lines 405-411, the loop over [self.supervisedContainer]. *)
Fixpoint evaluate_loop (roms : list B) (request : dict scalar)
    (resultsDict : results scalar) : result (results scalar) :=
  match roms with
  | [] => Returns resultsDict
  | rom :: roms' =>
      sliceEvaluation ← b_run rom request;
      resultsDict' ←
        (if (size resultsDict =? 0)%nat
         then Returns (sliceEvaluation ∪ resultsDict)
         else append_slice resultsDict sliceEvaluation);
      evaluate_loop roms' request resultsDict'
  end.

(** The decorator [timingProfile] only times the call.  [raiseAnError] raises
    the exception it is handed (see [raiseAnError] below). *)
Definition evaluate (request : input scalar DataObject) (self : obj)
    : result (results scalar) :=
  request ← inputToInternal request;
  if pickled self then
    Raises (Raised RuntimeError (NotLoaded (name self)))
  else if negb (amITrained self) then
    Raises (Raised RuntimeError (NotTrained (name self)))
  else
    resultsDict ←
      (if segment self then
         rom ← py_index (supervisedContainer self) 0;
         b_run rom request
       else evaluate_loop (supervisedContainer self) request ∅);
    Returns (np_atleast_1d <$> (resultsDict : results scalar)).

(** *** The state-and-exception monad of [train]

    A computation takes [self] and gives the outcome, [self] as the
    computation left it (also when it raised), and the log of the calls of
    a backend's [train] that it made: the position of the instance in
    [supervisedContainer] and the data it was handed. *)

Inductive call := TrainCall (position : nat) (data : dict scalar).

Record run (A : Type) := Run {
  outcome : result A;
  after : obj;
  calls : list call
}.
Arguments Run {A} outcome after calls.
Arguments outcome {A} _.
Arguments after {A} _.
Arguments calls {A} _.

Definition M (A : Type) : Type := obj → run A.

#[global] Instance M_ret : MRet M := λ A a self, Run (Returns a) self [].
#[global] Instance M_bind : MBind M := λ A C f m self,
  match m self with
  | Run (Returns a) self1 calls1 =>
      match f a self1 with
      | Run o self2 calls2 => Run o self2 (calls1 ++ calls2)
      end
  | Run (Raises e) self1 calls1 => Run (Raises e) self1 calls1
  end.

Definition get : M obj := λ self, Run (Returns self) self [].
Definition modify (f : obj → obj) : M unit := λ self, Run (Returns tt) (f self) [].
Definition lift {A} (r : result A) : M A := λ self, Run r self [].
(** Modelled from the spec: [raiseAnError] is inherited from a class in
    another file; after section 7 the errors raised at the facade are
    surfaced immediately to the caller, so it raises an exception of the
    class it is handed. *)
Definition raiseAnError {A} (cls : pyexc) (text : message) : M A :=
  lift (Raises (Raised cls text)).

(** [self.supervisedContainer[i].setAssembledObjects(...)] and the like:
    a method that updates the instance at index [i] in place. *)
Definition on_instance (i : Z) (method : B → B) : M unit := λ self,
  match py_position (length (supervisedContainer self)) i with
  | Some p =>
      Run (Returns tt)
          (set_supervisedContainer (alter method p (supervisedContainer self)) self) []
  | None => Run (Raises (Raised IndexError IndexOutOfRange)) self []
  end.

(** [self.supervisedContainer[i].train(data)]. *)
Definition call_train (i : Z) (data : dict scalar) : M unit := λ self,
  match py_position (length (supervisedContainer self)) i
        ≫= λ p, (p,.) <$> supervisedContainer self !! p with
  | Some (p, rom) =>
      let '(o, rom') := b_train data rom in
      Run o (set_supervisedContainer (<[p:=rom']> (supervisedContainer self)) self)
          [TrainCall p data]
  | None => Run (Raises (Raised IndexError IndexOutOfRange)) self []
  end.

Fixpoint for_each {A} (xs : list A) (body : A → M unit) : M unit :=
  match xs with
  | [] => mret tt
  | x :: xs' => body x;; for_each xs' body
  end.

(** *** train (ROM.py, lines 304-366) *)

(** What [train] is handed: another ROM, or data to learn from. *)
Inductive train_arg :=
  | FromROM (other : obj)
  | FromData (data : input scalar DataObject).

(** Line 331: [any(type(x).__name__ == 'list' for x in self.trainingSet.values())]. *)
Definition any_list (ts : dict scalar) : bool :=
  existsb is_list (map_to_list ts).*2.

(** Lines 317-320: the name of a HistorySet whose histories do not share the
    pivot index, if that is what [train] is handed. *)
Definition unsynchronized (self : obj) (data : input scalar DataObject)
    : option string :=
  match data with
  | InData d =>
      if String.eqb (typeOf d) "HistorySet"
         && negb (checkIndexAlignment d (pivotParameterId self))
      then Some (nameOf d) else None
  | InDict _ => None
  end.

(** Lines 352-360: the chain of per-timestep instances. *)
Definition train_chain (ts : dict scalar) (steps : nat) : M unit :=
  match historySnapShoots ts steps with
  | SnapOther _ => raiseAnError AssertionError AssertFailed
  | SnapList newTrainingSet =>
      self ← get;
      originalROM ← lift (py_index (supervisedContainer self) 0);
      modify (set_supervisedContainer (replicate steps originalROM));;
      for_each (seq 0 steps) (λ t,
        slice ← lift (py_index newTrainingSet (Z.of_nat t));
        call_train (Z.of_nat t) slice)
  end.

(** Lines 331-364: a time-dependent or a static training set. *)
Definition train_plain (self : obj) (ts : dict scalar) : M unit :=
  if any_list ts then
    modify (set_isADynamicModel true);;
    match ts !! pivotParameterId self with
    | None => raiseAnError IOError (PivotNotPresent (pivotParameterId self))
    | Some (Flat _) => raiseAnError IOError (PivotNotAList (pivotParameterId self))
    | Some (Nested hs) =>
        steps ← lift (py_index hs (-1));
        modify (set_historySteps steps);;
        if (length steps =? 0)%nat then raiseAnError IOError TrainingSetEmpty
        else if canHandleDynamicData self then call_train (-1) ts
        else train_chain ts (length steps)
    end
  else call_train 0 ts.

Definition train (arg : train_arg) : M unit :=
  match arg with
  | FromROM other =>
      ts ← lift (match trainingSet other with
                 | Some ts => Returns ts
                 | None => Raises (Raised AttributeError (MissingAttribute "trainingSet"))
                 end);
      modify (set_trainingSet (Some ts));;
      modify (set_amITrained (amITrained other));;
      modify (set_supervisedContainer (supervisedContainer other));;
      modify (set_seed (seed other))
  | FromData data =>
      self ← get;
      match unsynchronized self data with
      | Some dataName => raiseAnError IOError (NotSynchronized dataName)
      | None => mret tt
      end;;
      internal ← lift (inputToInternal data);
      let ts := replaceVariablesNamesWithAliasSystem internal in
      modify (set_trainingSet (Some ts));;
      on_instance 0 (b_setAssembledObjects (assemblerDict self));;
      (if segment self then call_train 0 ts else train_plain self ts);;
      modify (set_amITrained true)
  end.

(** [self] after lines 321-324, for a facade that holds an instance: the
    training set is stored and the first instance has been handed the
    assembler objects. *)
Definition prepared (self : obj) (ts : dict scalar) : obj :=
  set_supervisedContainer
    (alter (b_setAssembledObjects (assemblerDict self)) 0 (supervisedContainer self))
    (set_trainingSet (Some ts) self).

(** The three faults of the pivot variable that lines 334-342 look for, with
    the message each one is reported with. *)
Inductive pivot_fault (ts : dict scalar) (pivot : string) : message → Prop :=
  | pivot_absent :
      ts !! pivot = None → pivot_fault ts pivot (PivotNotPresent pivot)
  | pivot_flat xs :
      ts !! pivot = Some (Flat xs) → pivot_fault ts pivot (PivotNotAList pivot)
  | pivot_empty hs :
      ts !! pivot = Some (Nested hs) → last hs = Some [] →
      pivot_fault ts pivot TrainingSetEmpty.

(** *** reset (ROM.py, lines 242-250) *)

Definition reset (self : obj) : obj :=
  set_amITrained false
    (set_supervisedContainer (b_reset <$> supervisedContainer self) self).

(** *** Comparing two facades *)








(** *** __getstate__ and __setstate__ (ROM.py, lines 138-166)

    Both work on the attribute dictionary of the object, so the object is
    seen here as its [__dict__]: attribute name to attribute value.  The
    attributes that [obj] leaves out are copied by [__getstate__] and put
    back by [__setstate__] untouched. *)

Inductive attr :=
  | AStr (s : string)
  | ABool (b : bool)
  | AInstances (roms : list B)
  | ASteps (steps : list scalar)
  | ASeed (seed : option Z)
  | AAssembler (table : gmap string (list Assembled))
  | AData (ts : dict scalar).

Definition __dict__ (self : obj) : gmap string attr :=
  let d : gmap string attr := list_to_map [
    ("name", AStr (name self));
    ("subType", AStr (subType self));
    ("amITrained", ABool (amITrained self));
    ("pickled", ABool (pickled self));
    ("pivotParameterId", AStr (pivotParameterId self));
    ("canHandleDynamicData", ABool (canHandleDynamicData self));
    ("isADynamicModel", ABool (isADynamicModel self));
    ("supervisedContainer", AInstances (supervisedContainer self));
    ("historySteps", ASteps (historySteps self));
    ("segment", ABool (segment self));
    ("seed", ASeed (seed self));
    ("assemblerDict", AAssembler (assemblerDict self))] in
  match trainingSet self with
  | Some ts => <["trainingSet" := AData ts]> d
  | None => d
  end.

Definition as_str (a : attr) : option string :=
  match a with AStr s => Some s | _ => None end.
Definition as_bool (a : attr) : option bool :=
  match a with ABool b => Some b | _ => None end.
Definition as_instances (a : attr) : option (list B) :=
  match a with AInstances l => Some l | _ => None end.
Definition as_steps (a : attr) : option (list scalar) :=
  match a with ASteps l => Some l | _ => None end.
Definition as_seed (a : attr) : option (option Z) :=
  match a with ASeed s => Some s | _ => None end.
Definition as_assembler (a : attr) : option (gmap string (list Assembled)) :=
  match a with AAssembler t => Some t | _ => None end.
Definition as_data (a : attr) : option (dict scalar) :=
  match a with AData t => Some t | _ => None end.

(** The object an attribute dictionary stands for, when it has the twelve
    attributes of [__dict__] with values of the right sort. *)
Definition object_of (d : gmap string attr) : option obj :=
  a1 ← d !! "name" ≫= as_str;
  a2 ← d !! "subType" ≫= as_str;
  a3 ← d !! "amITrained" ≫= as_bool;
  a4 ← d !! "pickled" ≫= as_bool;
  a5 ← d !! "pivotParameterId" ≫= as_str;
  a6 ← d !! "canHandleDynamicData" ≫= as_bool;
  a7 ← d !! "isADynamicModel" ≫= as_bool;
  a8 ← d !! "supervisedContainer" ≫= as_instances;
  a9 ← d !! "historySteps" ≫= as_steps;
  a10 ← d !! "segment" ≫= as_bool;
  a11 ← d !! "seed" ≫= as_seed;
  a12 ← d !! "assemblerDict" ≫= as_assembler;
  a13 ← match d !! "trainingSet" with
         | Some a => Some <$> as_data a
         | None => Some None
         end;
  Some (Obj a1 a2 a3 a4 a5 a6 a7 a8 a9 a10 a11 a12 a13).

(** [not x] for an attribute value. *)
Definition falsy (a : attr) : bool :=
  match a with
  | AStr s => bool_decide (s = EmptyString)
  | ABool b => negb b
  | AInstances l => bool_decide (length l = 0)
  | ASteps l => bool_decide (length l = 0)
  | ASeed s => bool_decide (s = None)
  | AAssembler t => bool_decide (size t = 0)
  | AData t => bool_decide (size t = 0)
  end.

Definition __getstate__ (self : obj) : result (gmap string attr) :=
  let d := __dict__ self in
  d ← (if negb (amITrained self)
       then snd <$> dict_pop "supervisedContainer" d
       else Returns d);
  snd <$> dict_pop "assemblerDict" d.

(** [self.__dict__] is [own] when the method is entered; unpickling calls
    it on an object whose [__dict__] is empty. *)
Definition __setstate__ (own d : gmap string attr) : result (gmap string attr) :=
  let own := d ∪ own in
  trained ← dict_get "amITrained" d;
  own ←
    (if falsy trained then
       match own !! "subType" with
       | Some (AStr subType) =>
           modelInstance ← returnInstance subType;
           Returns (<["supervisedContainer" := AInstances [modelInstance]]> own)
       | Some _ => Raises (Raised (OtherException "TypeError") (OtherMessage "subType"))
       | None => Raises (Raised AttributeError (MissingAttribute "subType"))
       end
     else Returns own);
  Returns (<["assemblerDict" := AAssembler ∅]> own).

(** Pickling then unpickling: [__getstate__], then [__setstate__] on a new
    object. *)
Definition restore (self : obj) : result (gmap string attr) :=
  __getstate__ self ≫= __setstate__ ∅.

End Facade.

Arguments obj : clear implicits.
Arguments run : clear implicits.
Arguments attr : clear implicits.
Arguments Run {scalar Assembled B A} outcome after calls.
Arguments outcome {scalar Assembled B A} _.
Arguments after {scalar Assembled B A} _.
Arguments calls {scalar Assembled B A} _.

(** ** Further methods of the class *)

(** What [_copyModel] hands to [setAdditionalParams]: the dictionary
    [{'seed': ..., 'paramInput': ...}]. *)
Record loadSettings (P : Type) := LoadSettings {
  settings_seed : option Z;
  settings_paramInput : P
}.
Arguments LoadSettings {P} settings_seed settings_paramInput.
Arguments settings_seed {P} _.
Arguments settings_paramInput {P} _.

(** The other methods of a supervised-learning instance that ROM.py calls:
    [confidence] only reads and can raise, [reseed] and
    [setAdditionalParams] update the instance. *)
Class BackendExtras (scalar P B : Type) := {
  b_confidence : B → dict scalar → result (results scalar);
  b_reseed : Z → B → B;
  b_setAdditionalParams : loadSettings P → B → B
}.

(** What [info] holds in [_crossValidationScore]: the two entries read from
    the dictionary that [_returnCharacteristicsOfCvGivenOutputName] returns. *)
Record cv_info := CvInfo {
  targetName : string;
  metricType : string
}.

(** The cross-validation instance as ROM.py uses it, through its
    post-processor [_pp]: the options it was initialized with, its [run] on
    [[self, trainingSet]], which is handed the facade itself and so returns
    it as the call left it, and the characteristics of an output name.
    [intConversion] is the function of [utils]; [lenOf] is [len] of a data
    object.  The outputs of [run] are kept in the order of the dictionary. *)
Class CrossValidation (scalar DataObject Assembled B CV Metric : Type) := {
  cv_name : CV → string;
  initializationOptionDict : CV → gmap string (gmap string string);
  intConversion : string → option Z;
  lenOf : DataObject → nat;
  cv_run : CV → obj scalar Assembled B → input scalar DataObject
           → result (list (string * Metric)) * obj scalar Assembled B;
  returnCharacteristicsOfCvGivenOutputName : CV → string → cv_info
}.

Section Further.
Context {scalar DataObject Assembled B P CV Metric : Type}.
Context `{!Backend scalar Assembled B, !Host scalar DataObject B}.
Context `{!BackendExtras scalar P B}.
Context `{!CrossValidation scalar DataObject Assembled B CV Metric}.

Local Abbreviation obj := (obj scalar Assembled B).

Definition set_pickled (v : bool) (self : obj) : obj :=
  Obj (name self) (subType self) (amITrained self) v (pivotParameterId self)
      (canHandleDynamicData self) (isADynamicModel self)
      (supervisedContainer self) (historySteps self) (segment self)
      (seed self) (assemblerDict self) (trainingSet self).

(** The attributes that the configuration fixes. *)
Definition configuration (self : obj) :=
  (name self, subType self, pickled self, pivotParameterId self,
   canHandleDynamicData self, segment self, assemblerDict self).

(** *** confidence (ROM.py, lines 368-387) *)

(** Lines 380-386, the loop over [self.supervisedContainer]. *)
Fixpoint confidence_loop (roms : list B) (request : dict scalar)
    (confidenceDict : results scalar) : result (results scalar) :=
  match roms with
  | [] => Returns confidenceDict
  | rom :: roms' =>
      sliceEvaluation ← b_confidence rom request;
      confidenceDict' ←
        (if (size confidenceDict =? 0)%nat
         then Returns (sliceEvaluation ∪ confidenceDict)
         else append_slice confidenceDict sliceEvaluation);
      confidence_loop roms' request confidenceDict'
  end.

(** The text of line 378 is the one of [evaluate], built with [+]; the
    argument [target] is not used. *)
Definition confidence (request : input scalar DataObject) (self : obj)
    : result (results scalar) :=
  request ← inputToInternal request;
  if negb (amITrained self) then
    Raises (Raised RuntimeError (NotTrained (name self)))
  else confidence_loop (supervisedContainer self) request ∅.

(** *** reseed and setAdditionalParams (lines 252-259 and 454-461) *)

Definition reseed (newSeed : Z) (self : obj) : obj :=
  set_supervisedContainer (b_reseed newSeed <$> supervisedContainer self) self.

Definition setAdditionalParams (params : loadSettings P) (self : obj) : obj :=
  set_supervisedContainer
    (b_setAdditionalParams params <$> supervisedContainer self) self.

(** *** _copyModel (ROM.py, lines 288-302)

    [paramInput] is [self._paramInput], an attribute that [obj] leaves out
    and that [train] does not write. *)
Definition _copyModel (paramInput : P) (arg : train_arg) : M unit :=
  self ← get;
  let loadSettings := LoadSettings (seed self) paramInput in
  train arg;;
  modify (setAdditionalParams loadSettings);;
  modify (set_pickled false).

(** *** convergence, _crossValidationScore and _checkCV (lines 463-508)

    [cvInstance] is [self.cvInstance], an attribute that [obj] leaves out:
    [None] until [initialize] has retrieved the instance. *)

(** [len(trainingSet)]: the number of keys of a dict. *)
Definition training_len (trainingSet : input scalar DataObject) : nat :=
  match trainingSet with
  | InDict d => size d
  | InData d => lenOf d
  end.

Definition _checkCV (cvInstance : option CV) (trainingSize : nat) : result bool :=
  match cvInstance with
  | None => Raises (Raised AttributeError (MissingAttribute "_pp"))
  | Some cv =>
      let initDict := initializationOptionDict cv in
      match initDict !! "SciKitLearn" ≫= (.!! "n_splits") with
      | Some n_splits =>
          match intConversion n_splits with
          | Some n => Returns (negb (Z.of_nat trainingSize <? n)%Z)
          | None => Raises (Raised (OtherException "TypeError") (OtherMessage "<"))
          end
      | None => Returns false
      end
  end.

(** Lines 487-492, the loop over [outputMetrics.items()].  The name [rom] in
    the arguments of line 490 is bound nowhere in the method, so evaluating
    them is a NameError. *)
Fixpoint collect_metrics (cv : CV) (selfName : string)
    (outputMetrics : list (string * Metric)) (exploredTargets : list string)
    (cvMetrics : gmap string (string * Metric))
    : result (gmap string (string * Metric)) :=
  match outputMetrics with
  | [] => Returns cvMetrics
  | (cvKey, metricValues) :: outputMetrics' =>
      let info := returnCharacteristicsOfCvGivenOutputName cv cvKey in
      if bool_decide (targetName info ∈ exploredTargets) then
        Raises (Raised (OtherException "NameError") (OtherMessage "rom"))
      else
        collect_metrics cv selfName outputMetrics'
          (exploredTargets ++ [targetName info])
          (<[selfName := (metricType info, metricValues)]> cvMetrics)
  end.

Definition _crossValidationScore (cvInstance : option CV)
    (trainingSet : input scalar DataObject)
    : M (option (gmap string (string * Metric))) :=
  self ← get;
  (if (1 <? length (supervisedContainer self))%nat
   then raiseAnError IOError
          (OtherMessage "Cross Validation Method is not implemented for Clustered ROMs")
   else mret tt);;
  useCV ← lift (_checkCV cvInstance (training_len trainingSet));
  if useCV : bool then
    modify reset;;
    match cvInstance with
    | None => raiseAnError AttributeError (MissingAttribute "_pp")
    | Some cv =>
        outputMetrics ← (λ self, let '(o, self') := cv_run cv self trainingSet in
                                 Run o self' []);
        self ← get;
        cvMetrics ← lift (collect_metrics cv (name self) outputMetrics [] ∅);
        mret (Some cvMetrics)
    end
  else mret None.

Definition convergence (cvInstance : option CV)
    (trainingSet : input scalar DataObject)
    : M (option (gmap string (string * Metric))) :=
  _crossValidationScore cvInstance trainingSet.

(** *** Computations that leave the flag and the configuration alone *)

(** A computation that changes neither the configuration nor the trained
    flag, whatever its outcome. *)
Definition quiet {A} (m : M A) : Prop :=
  ∀ self, configuration (after (m self)) = configuration self
          ∧ amITrained (after (m self)) = amITrained self.

(** A computation that keeps the configuration, sets the trained flag when it
    returns and keeps it when it raises. *)
Definition flagging {A} (m : M A) : Prop :=
  ∀ self, configuration (after (m self)) = configuration self
          ∧ match outcome (m self) with
            | Returns _ => amITrained (after (m self)) = true
            | Raises _ => amITrained (after (m self)) = amITrained self
            end.

End Further.

End ROM.

(** * The class LinearDiscriminantAnalysisClassifier *)

Module LinearDiscriminantAnalysis.

(** The [InputTypes] the declarations name. *)
Inductive content_type :=
  | StringType | FloatOrStringType | FloatListType
  | IntegerType | BoolType | FloatType.

(** A Python literal, as a default value or as the content of a node.  A
    float is its digits times a power of ten: [LFloat 10 (-5)] is 1.0e-4. *)
Inductive literal :=
  | LNone
  | LStr (s : string)
  | LBool (b : bool)
  | LInt (n : Z)
  | LFloat (digits exponent : Z)
  | LFloats (xs : list (Z * Z)).

(** Modelled from the spec: a declaration made with
    [InputData.parameterInputFactory], which is in another file.  After
    section 3 a declared parameter has a name, a type and a default value;
    [declared_default] is [None] for a declaration that passes no [default=],
    and [Some LNone] for one that passes [default=None]. *)
Record declaration := ParameterInput {
  declared_name : string;
  contentType : content_type;
  declared_default : option literal
}.

(** Lines 51-97: the seven declarations added to the inherited ones, in the
    order of the source. *)
Definition getInputSpecification (inherited : list declaration) : list declaration :=
  inherited ++
  [ ParameterInput "solver" StringType (Some (LStr "svd"));
    ParameterInput "Shrinkage" FloatOrStringType (Some LNone);
    ParameterInput "priors" FloatListType (Some LNone);
    ParameterInput "n_components" IntegerType (Some LNone);
    ParameterInput "store_covariance" BoolType (Some (LBool false));
    ParameterInput "tol" FloatType (Some (LFloat 10 (-5)));
    ParameterInput "covariance_estimator" IntegerType (Some LNone) ].

(** A parsed configuration document: the nodes found under the model's node. *)
Record node := Node {
  node_name : string;
  node_value : literal
}.

Definition findFirst (paramInput : list node) (name : string) : option node :=
  List.find (λ n, String.eqb (node_name n) name) paramInput.

Definition getSub (specs : list declaration) (name : string) : option declaration :=
  List.find (λ d, String.eqb (declared_name d) name) specs.

(** Modelled from the spec: [ParameterInput.findNodesAndExtractValues], which
    is in another file.  A name is looked up in the document; when no node has
    it, the default of its declaration stands in; a name with neither a node
    nor a default is reported as not found. *)
Fixpoint findNodesAndExtractValues (specs : list declaration)
    (paramInput : list node) (names : list string)
    : gmap string literal * list string :=
  match names with
  | [] => (∅, [])
  | name :: names' =>
      let '(values, notFound) := findNodesAndExtractValues specs paramInput names' in
      match findFirst paramInput name with
      | Some n => (<[name := node_value n]> values, notFound)
      | None =>
          match getSub specs name ≫= declared_default with
          | Some v => (<[name := v]> values, notFound)
          | None => (<[name := LNone]> values, name :: notFound)
          end
      end
  end.

(** Lines 106-107: the names [_handleInput] asks for. *)
Definition handled : list string :=
  ["solver"; "Shrinkage"; "priors"; "n_components"; "store_covariance";
   "tol"; "covariance_estimator"].

(** Lines 99-110, after the inherited [_handleInput]: the settings handed to
    [initializeModel], or the failure of the assertion. *)
Definition _handleInput (specs : list declaration) (paramInput : list node)
    : result (gmap string literal) :=
  let '(settings, notFound) := findNodesAndExtractValues specs paramInput handled in
  match notFound with
  | [] => Returns settings
  | _ :: _ => Raises (Raised AssertionError AssertFailed)
  end.

End LinearDiscriminantAnalysis.

(** * A sample world

    The collaborators are parameters of the development; the concrete inputs
    on which statements are evaluated need concrete ones. *)

Module Sample.

(** Modelled from the spec: a backend instance after section 4.2, the code
    of the backends' base class being in other files.  [train] fits the
    instance to the data (a second call re-fits from scratch), [run] fails
    with a state error before [train], [reset] clears the fitted state.
    The prediction of this backend for a variable is the flat sequence it
    was fitted on. *)
Record memo := Memo {
  assembled : bool;
  fitted : option (dict Z)
}.

Definition predict (v : value Z) : option (ndarray Z) :=
  match v with
  | Flat xs => Some (NdArray [length xs] xs)
  | Nested _ => None
  end.

#[global] Instance memo_backend : Backend Z unit memo := {
  b_train data rom := (Returns tt, Memo (assembled rom) (Some data));
  b_run rom request :=
    match fitted rom with
    | Some data => Returns (omap predict data)
    | None => Raises (Raised RuntimeError (OtherMessage "not fitted"))
    end;
  b_reset rom := Memo (assembled rom) None;
  b_setAssembledObjects table rom := Memo true (fitted rom)
}.

(** A data object: its name, its type, whether its histories share the
    index asked for, and its content. *)
Record data_object := DataObject {
  do_name : string;
  do_type : string;
  do_aligned : bool;
  do_content : dict Z
}.

(** Modelled from the spec: [mathUtils.historySnapShoots] after section
    4.3, step 3: the training set sliced into per-timestep static datasets,
    failing when the realizations do not share the pivot length. *)
Definition slice_at (t : nat) (ts : dict Z) : dict Z :=
  (λ v, match v with
        | Nested hs => Flat (omap (λ h, h !! t) hs)
        | Flat xs => Flat xs
        end) <$> ts.

Definition aligned (steps : nat) (ts : dict Z) : bool :=
  forallb (λ v, match v with
                | Nested hs => forallb (λ h, length h =? steps)%nat hs
                | Flat _ => true
                end) (map_to_list ts).*2.

#[global] Instance host : Host Z data_object memo := {
  typeOf := do_type;
  nameOf := do_name;
  checkIndexAlignment d index := do_aligned d;
  inputToInternal data :=
    match data with
    | InDict d => Returns d
    | InData d => Returns (do_content d)
    end;
  replaceVariablesNamesWithAliasSystem ts := ts;
  historySnapShoots ts steps :=
    if aligned steps ts
    then SnapList ((λ t, slice_at t ts) <$> seq 0 steps)
    else SnapOther "histories of different lengths";
  returnInstance subType :=
    if String.eqb subType "memo" then Returns (Memo false None)
    else Raises (Raised KeyError (MissingKey subType))
}.

(** A configured, untrained facade around one memo instance. *)
Definition configured (dynamic : bool) : ROM.obj Z unit memo :=
  ROM.Obj "rom" "memo" false false "time" dynamic false
          [Memo false None] [] false None ∅ None.

(** Three realizations of a five-step history. *)
Definition histories : dict Z :=
  {[ "time" := Nested [[0; 1; 2; 3; 4]; [0; 1; 2; 3; 4]; [0; 1; 2; 3; 4]];
     "x" := Flat [10; 20; 30];
     "y" := Nested [[11; 12; 13; 14; 15]; [21; 22; 23; 24; 25]; [31; 32; 33; 34; 35]] ]}%Z.

(** A static training set. *)
Definition points : dict Z :=
  {[ "x" := Flat [10; 20; 30]; "y" := Flat [1; 2; 3] ]}%Z.

(** A time-dependent training set without its pivot variable. *)
Definition no_pivot : dict Z :=
  {[ "x" := Flat [10; 20]; "y" := Nested [[1; 2]; [3; 4]] ]}%Z.


(** A placeholder for a pickled ROM. *)
Definition placeholder (trained : bool) : ROM.obj Z unit memo :=
  ROM.Obj "rom" "pickledROM" trained true "time" false false
          [Memo false None] [] false None ∅ None.

(** The facade after it was trained on [histories]. *)
Definition trained_chain : ROM.obj Z unit memo :=
  ROM.after (ROM.train (ROM.FromData (DataObject:=data_object) (InDict histories))
                       (configured false)).

(** The five per-timestep slices of [histories], and what the instance
    trained on each predicts. *)
Definition slices : list (dict Z) := (λ t, slice_at t histories) <$> seq 0 5.

Definition predictions : list (results Z) :=
  (λ slice : dict Z, omap predict slice) <$> slices.

(** Inherited declarations, and a configuration document. *)
Definition inherited : list LinearDiscriminantAnalysis.declaration :=
  [ LinearDiscriminantAnalysis.ParameterInput "Features" LinearDiscriminantAnalysis.StringType None;
    LinearDiscriminantAnalysis.ParameterInput "Target" LinearDiscriminantAnalysis.StringType None ].

Definition document : list LinearDiscriminantAnalysis.node :=
  [ LinearDiscriminantAnalysis.Node "Features" (LinearDiscriminantAnalysis.LStr "x");
    LinearDiscriminantAnalysis.Node "solver" (LinearDiscriminantAnalysis.LStr "lsqr") ].

(** A second backend, with more to look at: it remembers the seed it was
    last told, its fit refuses a negative target and leaves the instance
    unfitted, and its confidence is a scalar, the number of points it was
    fitted on. *)
Record gauge := Gauge {
  told_seed : option Z;
  gauge_fitted : option (dict Z)
}.

Definition negative_target (data : dict Z) : bool :=
  match data !! "y" with
  | Some (Flat xs) => existsb (λ x, x <? 0)%Z xs
  | _ => false
  end.

Definition points_seen (v : value Z) : option (ndarray Z) :=
  match v with
  | Flat xs => Some (NdArray [] [Z.of_nat (length xs)])
  | Nested _ => None
  end.

#[global] Instance gauge_backend : Backend Z unit gauge := {
  b_train data rom :=
    if negative_target data
    then (Raises (Raised (OtherException "ValueError") (OtherMessage "negative target")),
          Gauge (told_seed rom) None)
    else (Returns tt, Gauge (told_seed rom) (Some data));
  b_run rom request :=
    match gauge_fitted rom with
    | Some data => Returns (omap predict data)
    | None => Raises (Raised RuntimeError (OtherMessage "not fitted"))
    end;
  b_reset rom := Gauge (told_seed rom) None;
  b_setAssembledObjects table rom := rom
}.

#[global] Instance gauge_extras : ROM.BackendExtras Z unit gauge := {
  b_confidence rom request :=
    match gauge_fitted rom with
    | Some data => Returns (omap points_seen data)
    | None => Raises (Raised RuntimeError (OtherMessage "not fitted"))
    end;
  b_reseed newSeed rom := Gauge (Some newSeed) (gauge_fitted rom);
  b_setAdditionalParams params rom :=
    Gauge (ROM.settings_seed params) (gauge_fitted rom)
}.

#[global] Instance gauge_host : Host Z data_object gauge := {
  typeOf := do_type;
  nameOf := do_name;
  checkIndexAlignment d index := do_aligned d;
  inputToInternal data :=
    match data with
    | InDict d => Returns d
    | InData d => Returns (do_content d)
    end;
  replaceVariablesNamesWithAliasSystem ts := ts;
  historySnapShoots ts steps :=
    if aligned steps ts
    then SnapList ((λ t, slice_at t ts) <$> seq 0 steps)
    else SnapOther "histories of different lengths";
  returnInstance subType :=
    if String.eqb subType "gauge" then Returns (Gauge None None)
    else Raises (Raised KeyError (MissingKey subType))
}.

(** A facade around gauge instances. *)
Definition gauges (trained pickled segmented : bool) (seed : option Z)
    (roms : list gauge) : ROM.obj Z unit gauge :=
  ROM.Obj "rom" "gauge" trained pickled "time" false false
          roms [] segmented seed ∅ None.

(** Two realizations of a three-step history; the second target is negative
    at the second step. *)
Definition dipping : dict Z :=
  {[ "time" := Nested [[0; 1; 2]; [0; 1; 2]];
     "y" := Nested [[1; 2; 3]; [4; -5; 6]] ]}%Z.

(** A cross-validation instance: the number of splits as written in its
    input, the outputs of its run, and the target and metric that each
    output name stands for. *)
Record cross_validation := CrossValidation {
  n_splits : option string;
  outputs : list (string * Z);
  meaning : list (string * ROM.cv_info)
}.

Fixpoint decimal (s : string) (acc : Z) : option Z :=
  match s with
  | EmptyString => Some acc
  | String c s' =>
      let n := (Z.of_nat (Ascii.nat_of_ascii c) - 48)%Z in
      if ((0 <=? n) && (n <=? 9))%Z then decimal s' (10 * acc + n)%Z else None
  end.

#[global] Instance sample_cv
    : ROM.CrossValidation Z data_object unit gauge cross_validation Z := {
  cv_name cv := "cv";
  initializationOptionDict cv :=
    match n_splits cv with
    | Some n => {[ "SciKitLearn" := {[ "n_splits" := n ]} ]}
    | None => {[ "SciKitLearn" := ∅ ]}
    end;
  intConversion s :=
    match s with EmptyString => None | _ => decimal s 0 end;
  lenOf d := size (do_content d);
  cv_run cv self trainingSet := (Returns (outputs cv), self);
  returnCharacteristicsOfCvGivenOutputName cv cvKey :=
    default (ROM.CvInfo cvKey "unknown") (list_to_map (M:=gmap string ROM.cv_info) (meaning cv) !! cvKey)
}.

Definition two_fold (outputs : list (string * Z)) : cross_validation :=
  CrossValidation (Some "2") outputs
    [("mse_y", ROM.CvInfo "y" "mse"); ("mae_y", ROM.CvInfo "y" "mae");
     ("mse_z", ROM.CvInfo "z" "mse")].

End Sample.



(** * Properties of evaluate *)

Section EvaluateFacts.
Context {scalar DataObject Assembled B : Type}.
Context `{!Backend scalar Assembled B, !Host scalar DataObject B}.
Implicit Types (self : ROM.obj scalar Assembled B).
Implicit Types (request : input scalar DataObject).
Implicit Types (acc slice : results scalar).

Lemma ravel_atleast_1d (a : ndarray scalar) : ravel (np_atleast_1d a) = ravel a.
Proof. unfold np_atleast_1d. by destruct (shape a). Qed.

Lemma ravel_append (a b : ndarray scalar) : ravel (np_append a b) = ravel a ++ ravel b.
Proof. done. Qed.

(** When the slice has every key of the results, no KeyError is raised and
    every entry grows by the slice's entry. *)
Lemma append_slice_returns acc slice :
  dom acc ⊆ dom slice →
  ROM.append_slice acc slice
  = Returns (map_imap (λ k v, np_append v <$> slice !! k) acc).
Proof.
  intros Hsub. unfold ROM.append_slice.
  destruct (filter _ _) as [|k ks] eqn:Hf; [done|].
  assert (Hk : k ∈ k :: ks) by left.
  rewrite <- Hf in Hk. apply list_elem_of_filter in Hk as [Hnone Hin].
  apply elem_of_elements, Hsub, elem_of_dom in Hin as [v Hv].
  congruence.
Qed.

Lemma append_slice_lookup acc slice k v w :
  acc !! k = Some v → slice !! k = Some w →
  map_imap (λ k v, np_append v <$> slice !! k) acc !! k = Some (np_append v w).
Proof. intros Ha Hs. rewrite map_lookup_imap, Ha. simpl. by rewrite Hs. Qed.

Lemma append_slice_dom acc slice :
  dom acc ⊆ dom slice →
  dom (map_imap (λ k v, np_append v <$> slice !! k) acc) = dom acc.
Proof.
  intros Hsub. apply set_eq. intros k. rewrite !elem_of_dom.
  rewrite map_lookup_imap. split.
  - destruct (acc !! k); [eauto | intros [? ?]; done].
  - intros [v Hv]. rewrite Hv. simpl.
    assert (k ∈ dom slice) as [w Hw]%elem_of_dom
      by (apply Hsub, elem_of_dom; eauto).
    rewrite Hw. eauto.
Qed.

(** The loop of lines 405-411 once the results have keys: each remaining
    instance contributes one segment to every key, in the order of the
    container. *)
Lemma evaluate_loop_appends roms internal rs : ∀ acc,
  Forall2 (λ rom r, b_run rom internal = Returns r) roms rs →
  Forall (λ r : results scalar, dom acc ⊆ dom r) rs →
  size acc ≠ 0 →
  ∃ res, ROM.evaluate_loop roms internal acc = Returns res
    ∧ dom res = dom acc
    ∧ ∀ k v, acc !! k = Some v →
        ∃ segs, Forall2 (λ r s, r !! k = Some s) rs segs
          ∧ ravel <$> res !! k = Some (ravel v ++ concat (ravel <$> segs)).
Proof.
  intros acc Hrun. revert acc.
  induction Hrun as [|rom r roms rs Hr Hrun IH]; intros acc Hdom Hsize.
  - exists acc. split_and!; [done..|].
    intros k v Hk. exists []. split; [constructor|].
    rewrite Hk. simpl. by rewrite app_nil_r.
  - apply Forall_cons in Hdom as [Hsub Hdom].
    simpl. rewrite Hr. simpl.
    destruct (Nat.eqb_spec (size acc) 0) as [|_]; [done|].
    rewrite (append_slice_returns _ _ Hsub). simpl.
    set (acc' := map_imap _ acc).
    assert (Hd : dom acc' = dom acc) by by apply append_slice_dom.
    destruct (IH acc') as (res & Hres & Hdres & Hsegs).
    { by rewrite Hd. }
    { rewrite <- size_dom, Hd, size_dom. done. }
    exists res. split_and!; [done|congruence|].
    intros k v Hk.
    assert (k ∈ dom r) as [w Hw]%elem_of_dom
      by (apply Hsub, elem_of_dom; eauto).
    destruct (Hsegs k (np_append v w)) as (segs & Hall & Hcat).
    { by apply append_slice_lookup. }
    exists (w :: segs). split; [by constructor|].
    rewrite Hcat, ravel_append, fmap_cons. simpl. by rewrite <- app_assoc.
Qed.

(** C1. For every backend type and configuration, evaluate on a facade that
    is neither a pickled placeholder nor trained returns no result: it
    raises, and for a request that the inherited input conversion accepts the
    exception is the RuntimeError "has not been trained yet", a state error
    in the taxonomy of the specification. *)
Theorem evaluate_before_train_raises self request :
  ROM.pickled self = false →
  ROM.amITrained self = false →
  returned (ROM.evaluate request self) = false
  ∧ ∀ internal, inputToInternal request = Returns internal →
      ROM.evaluate request self
      = Raises (Raised RuntimeError (NotTrained (ROM.name self)))
      ∧ kind_of (Raised RuntimeError (NotTrained (ROM.name self))) = StateError.
Proof.
  intros Hp Ht. unfold ROM.evaluate. rewrite Hp, Ht. simpl. split.
  - by destruct (inputToInternal request).
  - intros internal ->. done.
Qed.

(** C5. evaluate on a facade in the pickled-placeholder state raises the
    RuntimeError "has not been loaded yet", whatever the trained flag is,
    and so never the "has not been trained yet" error. *)
Theorem evaluate_placeholder_raises_not_loaded self request internal :
  inputToInternal request = Returns internal →
  ROM.pickled self = true →
  ROM.evaluate request self
  = Raises (Raised RuntimeError (NotLoaded (ROM.name self)))
  ∧ ROM.evaluate request self
    ≠ Raises (Raised RuntimeError (NotTrained (ROM.name self)))
  ∧ kind_of (Raised RuntimeError (NotLoaded (ROM.name self))) = StateError.
Proof.
  intros Hin Hp. unfold ROM.evaluate. rewrite Hin, Hp. simpl. done.
Qed.

(** C3. On a trained facade without segmentation whose container is a chain
    of N instances, evaluate runs the instances in the order of the chain;
    for a key of the first instance's result, the returned array is the
    concatenation of the N instances' results for that key, in that order.
    The returned mapping has the keys of the first instance's result. *)
Theorem evaluate_chain_concatenates self request internal r0 rs k v0 :
  inputToInternal request = Returns internal →
  ROM.pickled self = false →
  ROM.amITrained self = true →
  ROM.segment self = false →
  Forall2 (λ rom r, b_run rom internal = Returns r)
          (ROM.supervisedContainer self) (r0 :: rs) →
  Forall (λ r : results scalar, dom r0 ⊆ dom r) rs →
  r0 !! k = Some v0 →
  ∃ res segs,
    ROM.evaluate request self = Returns res
    ∧ dom res = dom r0
    ∧ Forall2 (λ r s, r !! k = Some s) (r0 :: rs) segs
    ∧ length segs = length (ROM.supervisedContainer self)
    ∧ ravel <$> res !! k = Some (concat (ravel <$> segs)).
Proof.
  intros Hin Hp Ht Hs Hrun Hdom Hk.
  unfold ROM.evaluate. rewrite Hin, Hp, Ht, Hs. simpl.
  pose proof (Forall2_length _ _ _ Hrun) as Hlen.
  destruct (ROM.supervisedContainer self) as [|rom roms]; [by inversion Hrun|].
  apply Forall2_cons in Hrun as [Hr0 Hrun].
  simpl. rewrite Hr0. simpl. rewrite map_size_empty. simpl.
  rewrite (right_id_L ∅ (∪)).
  destruct (evaluate_loop_appends roms internal rs r0 Hrun Hdom)
    as (res & Hres & Hdres & Hsegs).
  { intros Hz. apply map_size_empty_inv in Hz. by rewrite Hz in Hk. }
  destruct (Hsegs k v0 Hk) as (segs & Hall & Hcat).
  exists (np_atleast_1d <$> res), (v0 :: segs).
  rewrite Hres. simpl. split_and!.
  - done.
  - by rewrite dom_fmap_L.
  - by constructor.
  - simpl. apply Forall2_length in Hall. simpl in Hlen. lia.
  - rewrite lookup_fmap. destruct (res !! k) as [a|] eqn:Ha; [|done].
    simpl in *. rewrite ravel_atleast_1d. done.
Qed.

End EvaluateFacts.

(** * Properties of train *)

Section TrainFacts.
Context {scalar DataObject Assembled B : Type}.
Context `{!Backend scalar Assembled B, !Host scalar DataObject B}.
Implicit Types (self other : ROM.obj scalar Assembled B).
Implicit Types (data : input scalar DataObject).
Implicit Types (ts internal : dict scalar).

Lemma py_index_first {A} (x : A) (l : list A) : py_index (x :: l) 0 = Returns x.
Proof.
  unfold py_index, py_position. simpl.
  destruct (Z.ltb_spec 0 (Z.pos (Pos.of_succ_nat (length l)))); [done|lia].
Qed.

Lemma py_position_last (n : nat) : py_position (S n) (-1) = Some n.
Proof.
  unfold py_position.
  replace (if (-1 <? 0)%Z then (Z.of_nat (S n) + -1)%Z else (-1)%Z)
    with (Z.of_nat n) by (simpl; lia).
  destruct (Z.leb_spec 0 (Z.of_nat n)); [|lia].
  destruct (Z.ltb_spec (Z.of_nat n) (Z.of_nat (S n))); [|lia].
  simpl. by rewrite Nat2Z.id.
Qed.

Lemma py_position_nat (n t : nat) :
  t < n → py_position n (Z.of_nat t) = Some t.
Proof.
  intros Hlt. unfold py_position.
  destruct (Z.ltb_spec (Z.of_nat t) 0); [lia|].
  destruct (Z.leb_spec 0 (Z.of_nat t)); [|lia].
  destruct (Z.ltb_spec (Z.of_nat t) (Z.of_nat n)); [|lia].
  simpl. by rewrite Nat2Z.id.
Qed.

Lemma py_index_last {A} (l : list A) (x : A) :
  last l = Some x → py_index l (-1) = Returns x.
Proof.
  intros Hl. unfold py_index.
  destruct l as [|y l]; [done|].
  change (length (y :: l)) with (S (length l)).
  rewrite py_position_last. simpl.
  rewrite last_lookup in Hl. simpl in Hl. by rewrite Hl.
Qed.

Lemma py_index_nat {A} (l : list A) (t : nat) (x : A) :
  l !! t = Some x → py_index l (Z.of_nat t) = Returns x.
Proof.
  intros Hl. unfold py_index.
  rewrite py_position_nat by by eapply lookup_lt_Some.
  simpl. by rewrite Hl.
Qed.

Lemma any_list_true ts k hs : ts !! k = Some (Nested hs) → ROM.any_list ts = true.
Proof.
  intros Hk. unfold ROM.any_list. apply existsb_exists.
  exists (Nested hs). split; [|done].
  apply list_elem_of_In, list_elem_of_fmap. exists (k, Nested hs).
  split; [done|]. by apply elem_of_map_to_list.
Qed.


(** ** The monad's equations *)

Section MonadFacts.
Context {A C : Type}.
Implicit Types (k : A → ROM.M (scalar:=scalar) (Assembled:=Assembled) (B:=B) C).

Lemma run_eta (r : ROM.run scalar Assembled B C) :
  match r with ROM.Run o s c => ROM.Run o s c end = r.
Proof. by destruct r. Qed.

Lemma bind_mret (a : A) k self : (mret a ≫= k) self = k a self.
Proof. unfold mbind, ROM.M_bind, mret, ROM.M_ret. apply run_eta. Qed.

Lemma bind_lift_returns (a : A) k self : (ROM.lift (Returns a) ≫= k) self = k a self.
Proof. unfold mbind, ROM.M_bind, ROM.lift. apply run_eta. Qed.

Lemma bind_lift_raises (e : exn) k self :
  (ROM.lift (Raises e) ≫= k) self = ROM.Run (Raises e) self [].
Proof. done. Qed.

Lemma bind_raiseAnError cls text k self :
  (ROM.raiseAnError cls text ≫= k) self = ROM.Run (Raises (Raised cls text)) self [].
Proof. done. Qed.

End MonadFacts.

Lemma bind_get {C} (k : _ → ROM.M C) self : (ROM.get ≫= k) self = k self self.
Proof. unfold mbind, ROM.M_bind, ROM.get. apply run_eta. Qed.

Lemma bind_modify {C} f (k : _ → ROM.M C) self :
  (ROM.modify f ≫= k) self = k tt (f self).
Proof. unfold mbind, ROM.M_bind, ROM.modify. apply run_eta. Qed.

Lemma then_modify (m : ROM.M unit) f self :
  (m;; ROM.modify f) self
  = match m self with
    | ROM.Run (Returns _) s c => ROM.Run (Returns tt) (f s) c
    | ROM.Run (Raises e) s c => ROM.Run (Raises e) s c
    end.
Proof.
  unfold mbind, ROM.M_bind, ROM.modify.
  destruct (m self) as [[[]|e] s c]; [|done]. by rewrite app_nil_r.
Qed.

Lemma train_unsynchronized self data dataName :
  ROM.unsynchronized self data = Some dataName →
  ROM.train (ROM.FromData data) self
  = ROM.Run (Raises (Raised IOError (NotSynchronized dataName))) self [].
Proof.
  intros Hsync. unfold ROM.train. rewrite bind_get, Hsync. done.
Qed.

Lemma bind_on_instance {C} i method (k : _ → ROM.M C) self p :
  py_position (length (ROM.supervisedContainer self)) i = Some p →
  (ROM.on_instance i method ≫= k) self
  = k tt (ROM.set_supervisedContainer
            (alter method p (ROM.supervisedContainer self)) self).
Proof.
  intros Hp. unfold mbind, ROM.M_bind, ROM.on_instance. rewrite Hp.
  apply run_eta.
Qed.

Lemma call_train_run i ts self p rom :
  py_position (length (ROM.supervisedContainer self)) i = Some p →
  ROM.supervisedContainer self !! p = Some rom →
  ROM.call_train i ts self
  = ROM.Run (b_train ts rom).1
      (ROM.set_supervisedContainer
         (<[p := (b_train ts rom).2]> (ROM.supervisedContainer self)) self)
      [ROM.TrainCall p ts].
Proof.
  intros Hp Hrom. unfold ROM.call_train. rewrite Hp. simpl. rewrite Hrom. simpl.
  by destruct (b_train ts rom).
Qed.

Lemma train_unfold self data internal rom roms :
  ROM.unsynchronized self data = None →
  inputToInternal data = Returns internal →
  ROM.supervisedContainer self = rom :: roms →
  let ts := replaceVariablesNamesWithAliasSystem internal in
  ROM.train (ROM.FromData data) self
  = ((if ROM.segment self then ROM.call_train 0 ts else ROM.train_plain self ts);;
      ROM.modify (ROM.set_amITrained true)) (ROM.prepared self ts).
Proof.
  intros Hsync Hin Hc ts.
  unfold ROM.train. rewrite bind_get, Hsync, bind_mret, Hin, bind_lift_returns.
  rewrite bind_modify.
  rewrite (bind_on_instance _ _ _ _ 0); [done|].
  simpl. by rewrite Hc.
Qed.

(** The pivot checks of lines 334-342 stop [train_plain] before any backend
    is trained. *)
Lemma train_plain_fault self ts text k hs (s : ROM.obj scalar Assembled B) :
  ts !! k = Some (Nested hs) →
  ROM.pivot_fault ts (ROM.pivotParameterId self) text →
  ROM.outcome (ROM.train_plain self ts s) = Raises (Raised IOError text)
  ∧ ROM.amITrained (ROM.after (ROM.train_plain self ts s)) = ROM.amITrained s
  ∧ ROM.supervisedContainer (ROM.after (ROM.train_plain self ts s))
    = ROM.supervisedContainer s
  ∧ ROM.calls (ROM.train_plain self ts s) = [].
Proof.
  intros Hk Hfault. unfold ROM.train_plain.
  rewrite (any_list_true _ _ _ Hk), bind_modify.
  destruct Hfault as [Hp|xs Hp|hs' Hp Hlast]; rewrite Hp; [done..|].
  rewrite (py_index_last _ _ Hlast), bind_lift_returns, bind_modify. done.
Qed.

(** C6. When some value of the training set is a sequence-of-sequences and
    no segmentation is configured, train raises an IOError, a data-consistency
    error in the taxonomy of the specification, if the pivot variable is
    absent from the training set, if its value is not a sequence-of-sequences,
    or if the last realization's pivot sequence is empty.  No backend is
    trained, the trained flag keeps the value it had, and unless the data
    object was reported as not synchronized the message is the one of the
    fault. *)
Theorem train_pivot_fault_raises self data internal k hs text :
  inputToInternal data = Returns internal →
  ROM.supervisedContainer self ≠ [] →
  ROM.segment self = false →
  replaceVariablesNamesWithAliasSystem internal !! k = Some (Nested hs) →
  ROM.pivot_fault (replaceVariablesNamesWithAliasSystem internal)
                  (ROM.pivotParameterId self) text →
  let r := ROM.train (ROM.FromData data) self in
  ∃ e, ROM.outcome r = Raises e
    ∧ exn_class e = IOError
    ∧ kind_of e = DataConsistencyError
    ∧ (ROM.unsynchronized self data = None → exn_message e = text)
    ∧ ROM.amITrained (ROM.after r) = ROM.amITrained self
    ∧ ROM.calls r = [].
Proof.
  intros Hin Hc Hseg Hk Hfault r. subst r.
  destruct (ROM.unsynchronized self data) as [dataName|] eqn:Hsync.
  { rewrite (train_unsynchronized _ _ _ Hsync). simpl. eexists.
    split_and!; [done..| |done|done]. done. }
  destruct (ROM.supervisedContainer self) as [|rom roms] eqn:Hroms; [done|].
  rewrite (train_unfold _ _ _ _ _ Hsync Hin Hroms), Hseg, then_modify.
  destruct (train_plain_fault self _ text k hs
              (ROM.prepared self (replaceVariablesNamesWithAliasSystem internal))
              Hk Hfault) as (Ho & Ht & _ & Hcalls).
  destruct (ROM.train_plain _ _ _) as [o s c]. simpl in *. subst o c.
  eexists. split_and!; [done|done| |done|done|done].
  by destruct Hfault.
Qed.



Lemma bind_returns {A C} (m : ROM.M A) (k : A → ROM.M C) self a s c :
  m self = ROM.Run (Returns a) s c →
  (m ≫= k) self
  = ROM.Run (ROM.outcome (k a s)) (ROM.after (k a s)) (c ++ ROM.calls (k a s)).
Proof.
  intros Hm. unfold mbind, ROM.M_bind. rewrite Hm. by destruct (k a s).
Qed.



(** ** Two runs of train side by side *)

Implicit Types (s used fresh : ROM.obj scalar Assembled B).











End TrainFacts.

(** * Properties of __getstate__ and __setstate__ *)

Section PickleFacts.
Context {scalar DataObject Assembled B : Type}.
Context `{!Backend scalar Assembled B, !Host scalar DataObject B}.
Implicit Types (self : ROM.obj scalar Assembled B).

Lemma dict_has_attributes self :
  ROM.__dict__ self !! "assemblerDict" = Some (ROM.AAssembler (ROM.assemblerDict self))
  ∧ ROM.__dict__ self !! "supervisedContainer"
    = Some (ROM.AInstances (ROM.supervisedContainer self)).
Proof.
  unfold ROM.__dict__. destruct (ROM.trainingSet self); by vm_compute.
Qed.

(** The assembler table is never part of the serialized state. *)
Lemma getstate_drops_assembler self :
  ∃ d, ROM.__getstate__ self = Returns d ∧ d !! "assemblerDict" = None.
Proof.
  destruct (dict_has_attributes self) as [Hasm Hroms].
  unfold ROM.__getstate__, dict_pop.
  destruct (ROM.amITrained self); simpl.
  - rewrite Hasm. simpl. eexists. split; [done|]. apply lookup_delete_eq.
  - rewrite Hroms. simpl. rewrite lookup_delete_ne, Hasm by done. simpl.
    eexists. split; [done|]. apply lookup_delete_eq.
Qed.

Lemma setstate_untrained (own d : gmap string (ROM.attr scalar Assembled B)) subType fresh :
  d !! "amITrained" = Some (ROM.ABool false) →
  (d ∪ own) !! "subType" = Some (ROM.AStr subType) →
  returnInstance subType = Returns fresh →
  ROM.__setstate__ own d
  = Returns (<["assemblerDict" := ROM.AAssembler ∅]>
               (<["supervisedContainer" := ROM.AInstances [fresh]]> (d ∪ own))).
Proof.
  intros Htrained Hsub Hfresh. unfold ROM.__setstate__, dict_get.
  rewrite Htrained. simpl. rewrite Hsub, Hfresh. done.
Qed.

Lemma getstate_untrained self :
  ROM.amITrained self = false →
  ROM.__getstate__ self
  = Returns (delete "assemblerDict" (delete "supervisedContainer" (ROM.__dict__ self))).
Proof.
  intros Htrained. destruct (dict_has_attributes self) as [Hasm Hroms].
  unfold ROM.__getstate__, dict_pop. rewrite Htrained. simpl.
  rewrite Hroms. simpl. rewrite lookup_delete_ne, Hasm by done. done.
Qed.

(** C8. Serializing a facade whose trained flag is false leaves the
    container out of the serialized state, and restoring gives a facade
    with the trained flag false, exactly one instance, the one the factory
    returns for the recorded backend type, an empty assembler table, and
    every other attribute as it was.  The assembler table is left out of
    the serialized state of every facade, trained or not. *)
Theorem untrained_facade_restored self fresh :
  ROM.amITrained self = false →
  returnInstance (ROM.subType self) = Returns fresh →
  (∃ d, ROM.__getstate__ self = Returns d
     ∧ d !! "supervisedContainer" = None ∧ d !! "assemblerDict" = None)
  ∧ (∃ d', ROM.restore self = Returns d'
       ∧ d' !! "amITrained" = Some (ROM.ABool false)
       ∧ d' !! "supervisedContainer" = Some (ROM.AInstances [fresh])
       ∧ d' !! "assemblerDict" = Some (ROM.AAssembler ∅)
       ∧ ROM.object_of d'
         = Some (ROM.Obj (ROM.name self) (ROM.subType self) false
                   (ROM.pickled self) (ROM.pivotParameterId self)
                   (ROM.canHandleDynamicData self) (ROM.isADynamicModel self)
                   [fresh] (ROM.historySteps self) (ROM.segment self)
                   (ROM.seed self) ∅ (ROM.trainingSet self)))
  ∧ (∀ any : ROM.obj scalar Assembled B,
       ∃ d, ROM.__getstate__ any = Returns d ∧ d !! "assemblerDict" = None).
Proof.
  intros Htrained Hfresh. split_and!; [| |apply getstate_drops_assembler].
  - rewrite (getstate_untrained _ Htrained). eexists. split; [done|].
    split; [|apply lookup_delete_eq].
    rewrite lookup_delete_ne by done. apply lookup_delete_eq.
  - unfold ROM.restore. rewrite (getstate_untrained _ Htrained). simpl.
    erewrite setstate_untrained; [|..|exact Hfresh].
    + eexists. split; [done|].
      destruct self as [n st tr pk pv ch dy roms hsteps sg sd asm [ts|]];
        simpl in *; subst tr; by vm_compute.
    + destruct self as [n st tr pk pv ch dy roms hsteps sg sd asm [ts|]];
        simpl in *; subst tr; by vm_compute.
    + destruct self as [n st tr pk pv ch dy roms hsteps sg sd asm [ts|]];
        simpl in *; by vm_compute.
Qed.

End PickleFacts.

(** * Properties of the discriminant-analysis classifier's input handling *)

Section SchemaFacts.
Import LinearDiscriminantAnalysis.
Implicit Types (specs inherited : list declaration) (paramInput : list node).

(** A name that no inherited declaration has is looked up among the
    declarations the class adds. *)
Lemma getSub_inherited inherited own name :
  Forall (λ d, declared_name d ≠ name) inherited →
  getSub (inherited ++ own) name = getSub own name.
Proof.
  induction 1 as [|d inherited Hd _ IH]; [done|].
  unfold getSub in *. simpl.
  destruct (declared_name d =? name) eqn:Heq; [|apply IH].
  by apply String.eqb_eq in Heq.
Qed.

Lemma handled_have_defaults inherited name :
  Forall (λ d, declared_name d ∉ handled) inherited →
  name ∈ handled →
  is_Some (getSub (getInputSpecification inherited) name ≫= declared_default).
Proof.
  intros Hinh Hname. unfold getInputSpecification.
  rewrite getSub_inherited.
  - unfold handled in Hname.
    repeat (apply elem_of_cons in Hname as [->|Hname]; [by eexists|]).
    by apply elem_of_nil in Hname.
  - eapply Forall_impl; [exact Hinh|]. intros d Hd Heq. apply Hd. by rewrite Heq.
Qed.

(** When every name asked for has a node or a declared default, nothing is
    reported as not found and every name gets a value. *)
Lemma findNodesAndExtractValues_all_found specs paramInput names :
  (∀ name, name ∈ names → is_Some (getSub specs name ≫= declared_default)) →
  (findNodesAndExtractValues specs paramInput names).2 = []
  ∧ dom (findNodesAndExtractValues specs paramInput names).1 = list_to_set names.
Proof.
  induction names as [|name names IH]; intros Hall.
  { simpl. split; [done|]. apply dom_empty_L. }
  destruct IH as [Hnf Hdom].
  { intros n Hn. apply Hall. by right. }
  simpl. destruct (findNodesAndExtractValues specs paramInput names) as [values notFound].
  simpl in *. subst notFound.
  destruct (findFirst paramInput name) as [n|].
  - simpl. by rewrite dom_insert_L, Hdom.
  - destruct (Hall name) as [v Hv]; [by left|]. rewrite Hv. simpl.
    by rewrite dom_insert_L, Hdom.
Qed.

(** C10. For every configuration document, the extraction of the seven
    parameters in _handleInput reports none as not found, so the assertion
    that follows it does not fire and the settings handed on hold a value
    for each of the seven: each is declared in getInputSpecification with a
    default.  The inherited declarations are taken not to declare any of
    the seven names. *)
Theorem handleInput_assertion_holds inherited paramInput :
  Forall (λ d, declared_name d ∉ handled) inherited →
  (findNodesAndExtractValues (getInputSpecification inherited) paramInput handled).2 = []
  ∧ ∃ settings,
      _handleInput (getInputSpecification inherited) paramInput = Returns settings
      ∧ dom settings = list_to_set handled.
Proof.
  intros Hinh.
  destruct (findNodesAndExtractValues_all_found
              (getInputSpecification inherited) paramInput handled) as [Hnf Hdom].
  { intros name Hname. by apply handled_have_defaults. }
  split; [done|]. unfold _handleInput.
  destruct (findNodesAndExtractValues _ _ handled) as [settings notFound].
  simpl in *. subst notFound. by exists settings.
Qed.

End SchemaFacts.

(** * The statements on the sample world *)

Import Sample.

Lemma evaluate_before_train_raises_witness :
  ROM.pickled (configured false) = false
  ∧ ROM.amITrained (configured false) = false
  ∧ ROM.evaluate (DataObject:=data_object) (InDict points) (configured false)
    = Raises (Raised RuntimeError (NotTrained "rom")).
Proof.
  split; [reflexivity|]. split; [reflexivity|].
  destruct (evaluate_before_train_raises (DataObject:=data_object)
              (configured false) (InDict points) eq_refl eq_refl) as [_ Hraises].
  exact (proj1 (Hraises points eq_refl)).
Defined.

Lemma evaluate_placeholder_raises_not_loaded_witness :
  ROM.evaluate (DataObject:=data_object) (InDict points)
    (placeholder true)
  = Raises (Raised RuntimeError (NotLoaded "rom")).
Proof.
  exact (proj1 (evaluate_placeholder_raises_not_loaded (DataObject:=data_object)
                  (placeholder true)
                  (InDict points) points eq_refl eq_refl)).
Defined.

Lemma evaluate_chain_concatenates_witness :
  ∃ res segs,
    ROM.evaluate (DataObject:=data_object) (InDict points) trained_chain = Returns res
    ∧ dom res = dom (omap predict (slice_at 0 histories))
    ∧ Forall2 (λ r s, r !! "y" = Some s) predictions segs
    ∧ length segs = 5
    ∧ ravel <$> res !! "y" = Some (concat (ravel <$> segs)).
Proof.
  apply (evaluate_chain_concatenates (DataObject:=data_object)
           trained_chain (InDict points) points
           (omap predict (slice_at 0 histories)) (tail predictions)
           "y" (NdArray [3] [11; 21; 31]%Z)).
  - reflexivity.
  - reflexivity.
  - reflexivity.
  - reflexivity.
  - vm_compute. repeat constructor.
  - vm_compute. repeat constructor; set_solver.
  - vm_compute. reflexivity.
Defined.

Lemma train_pivot_fault_raises_witness :
  let r := ROM.train (ROM.FromData (DataObject:=data_object) (InDict no_pivot))
                     (configured false) in
  ∃ e, ROM.outcome r = Raises e
    ∧ exn_class e = IOError
    ∧ kind_of e = DataConsistencyError
    ∧ (ROM.unsynchronized (configured false) (InDict (DataObject:=data_object) no_pivot) = None →
       exn_message e = PivotNotPresent "time")
    ∧ ROM.amITrained (ROM.after r) = ROM.amITrained (configured false)
    ∧ ROM.calls r = [].
Proof.
  apply (train_pivot_fault_raises (DataObject:=data_object)
           (configured false) (InDict no_pivot) no_pivot
           "y" [[1; 2]; [3; 4]]%Z (PivotNotPresent "time")).
  - reflexivity.
  - discriminate.
  - reflexivity.
  - vm_compute. reflexivity.
  - apply ROM.pivot_absent. vm_compute. reflexivity.
Defined.








Lemma untrained_facade_restored_witness :
  ∃ d', ROM.restore (configured false) = Returns d'
    ∧ d' !! "amITrained" = Some (ROM.ABool false)
    ∧ d' !! "supervisedContainer" = Some (ROM.AInstances [Memo false None])
    ∧ d' !! "assemblerDict" = Some (ROM.AAssembler ∅)
    ∧ ROM.object_of d' = Some (configured false).
Proof.
  exact (proj1 (proj2 (untrained_facade_restored (DataObject:=data_object)
                         (configured false) (Memo false None) eq_refl eq_refl))).
Defined.

Lemma handleInput_assertion_holds_witness :
  (LinearDiscriminantAnalysis.findNodesAndExtractValues
     (LinearDiscriminantAnalysis.getInputSpecification inherited) document
     LinearDiscriminantAnalysis.handled).2 = []
  ∧ ∃ settings,
      LinearDiscriminantAnalysis._handleInput
        (LinearDiscriminantAnalysis.getInputSpecification inherited) document
      = Returns settings
      ∧ dom settings = list_to_set LinearDiscriminantAnalysis.handled.
Proof.
  apply (handleInput_assertion_holds inherited document).
  repeat constructor; vm_compute; intros Hin;
    repeat (apply elem_of_cons in Hin as [Hin|Hin]; [discriminate Hin|]);
    by apply elem_of_nil in Hin.
Defined.

(** * Further properties of train *)

Section TrainMore.
Context {scalar DataObject Assembled B : Type}.
Context `{!Backend scalar Assembled B, !Host scalar DataObject B}.
Implicit Types (self other : ROM.obj scalar Assembled B).
Implicit Types (data : input scalar DataObject).
Implicit Types (ts internal : dict scalar).
Local Abbreviation M := (ROM.M (scalar:=scalar) (Assembled:=Assembled) (B:=B)).

Lemma bind_raises {A C} (m : M A) (k : A → M C) self e s c :
  m self = ROM.Run (Raises e) s c →
  (m ≫= k) self = ROM.Run (Raises e) s c.
Proof. intros Hm. unfold mbind, ROM.M_bind. by rewrite Hm. Qed.

(** ** Computations that leave flag and configuration alone *)

Lemma quiet_mret {A} (a : A) :
  ROM.quiet (mret a : M A).
Proof. done. Qed.

Lemma quiet_lift {A} (r : result A) :
  ROM.quiet (ROM.lift (scalar:=scalar) (Assembled:=Assembled) (B:=B) r).
Proof. done. Qed.

Lemma quiet_get : ROM.quiet (ROM.get (scalar:=scalar) (Assembled:=Assembled) (B:=B)).
Proof. done. Qed.

Lemma quiet_modify (f : ROM.obj scalar Assembled B → ROM.obj scalar Assembled B) :
  (∀ self, ROM.configuration (f self) = ROM.configuration self
           ∧ ROM.amITrained (f self) = ROM.amITrained self) →
  ROM.quiet (ROM.modify f).
Proof. intros Hf self. apply Hf. Qed.

Lemma quiet_bind {A C} (m : M A) (k : A → M C) :
  ROM.quiet m → (∀ a, ROM.quiet (k a)) → ROM.quiet (m ≫= k).
Proof.
  intros Hm Hk self. specialize (Hm self). unfold mbind, ROM.M_bind.
  destruct (m self) as [[a|e] s c]; simpl in *; [|done].
  specialize (Hk a s). destruct (k a s) as [o s' c']. simpl in *.
  destruct Hm as [Hm1 Hm2], Hk as [Hk1 Hk2]. split; congruence.
Qed.

Lemma quiet_on_instance i (method : B → B) :
  ROM.quiet (ROM.on_instance (scalar:=scalar) (Assembled:=Assembled) i method).
Proof.
  intros self. unfold ROM.on_instance. by destruct (py_position _ _).
Qed.

Lemma quiet_call_train i ts :
  ROM.quiet (ROM.call_train (Assembled:=Assembled) (B:=B) i ts).
Proof.
  intros self. unfold ROM.call_train.
  destruct (_ ≫= _) as [[p rom]|]; [|done].
  by destruct (b_train ts rom).
Qed.

Lemma quiet_for_each {A} (xs : list A) (body : A → M unit) :
  (∀ x, ROM.quiet (body x)) → ROM.quiet (ROM.for_each xs body).
Proof.
  intros Hbody. induction xs as [|x xs IH]; [apply quiet_mret|].
  simpl. apply quiet_bind; [apply Hbody|]. intros _. apply IH.
Qed.

Lemma quiet_train_chain ts n :
  ROM.quiet (ROM.train_chain (Assembled:=Assembled) (B:=B) ts n).
Proof.
  unfold ROM.train_chain. destruct (historySnapShoots ts n); [|apply quiet_lift].
  apply quiet_bind; [apply quiet_get|]. intros self.
  apply quiet_bind; [apply quiet_lift|]. intros original.
  apply quiet_bind; [by apply quiet_modify|]. intros _.
  apply quiet_for_each. intros t.
  apply quiet_bind; [apply quiet_lift|]. intros slice. apply quiet_call_train.
Qed.

Lemma quiet_train_plain self ts : ROM.quiet (ROM.train_plain self ts).
Proof.
  unfold ROM.train_plain. destruct (ROM.any_list ts); [|apply quiet_call_train].
  apply quiet_bind; [by apply quiet_modify|]. intros _.
  destruct (ts !! ROM.pivotParameterId self) as [[xs|hs]|]; try apply quiet_lift.
  apply quiet_bind; [apply quiet_lift|]. intros steps.
  apply quiet_bind; [by apply quiet_modify|]. intros _.
  destruct (length steps =? 0)%nat; [apply quiet_lift|].
  destruct (ROM.canHandleDynamicData self);
    [apply quiet_call_train|apply quiet_train_chain].
Qed.

Lemma flagging_bind {A C} (m : M A) (k : A → M C) :
  ROM.quiet m → (∀ a, ROM.flagging (k a)) → ROM.flagging (m ≫= k).
Proof.
  intros Hm Hk self. specialize (Hm self). unfold mbind, ROM.M_bind.
  destruct (m self) as [[a|e] s c]; simpl in *; [|done].
  specialize (Hk a s). destruct (k a s) as [o s' c']. simpl in *.
  destruct Hm as [Hm1 Hm2], Hk as [Hk1 Hk2]. split; [congruence|].
  destruct o; congruence.
Qed.

Lemma train_data_flagging data : ROM.flagging (ROM.train (ROM.FromData data)).
Proof.
  unfold ROM.train.
  apply flagging_bind; [apply quiet_get|]. intros self.
  apply flagging_bind.
  { destruct (ROM.unsynchronized self data); [apply quiet_lift|apply quiet_mret]. }
  intros _. apply flagging_bind; [apply quiet_lift|]. intros internal.
  apply flagging_bind; [by apply quiet_modify|]. intros _.
  apply flagging_bind; [apply quiet_on_instance|]. intros _.
  apply flagging_bind.
  { destruct (ROM.segment self); [apply quiet_call_train|apply quiet_train_plain]. }
  intros _ s. done.
Qed.

(** What every run of train keeps and what it does to the flag. *)
Lemma train_frame arg self :
  let r := ROM.train arg self in
  ROM.configuration (ROM.after r) = ROM.configuration self
  ∧ match ROM.outcome r with
    | Returns _ =>
        ROM.amITrained (ROM.after r)
        = match arg with
          | ROM.FromROM other => ROM.amITrained other
          | ROM.FromData _ => true
          end
    | Raises _ => ROM.amITrained (ROM.after r) = ROM.amITrained self
    end.
Proof.
  destruct arg as [other|data]; [|apply train_data_flagging].
  simpl. unfold ROM.train.
  destruct (ROM.trainingSet other) as [ts|].
  - by rewrite bind_lift_returns, !bind_modify.
  - by rewrite bind_lift_raises.
Qed.


(** X2. train never changes what the configuration fixed: the name, the
    backend type, the placeholder flag, the pivot parameter, whether the
    backend handles time-dependent data, whether segmentation is on, and the
    assembler table are the same after train as before, whatever it is
    handed and whether it returns or raises. *)
Theorem train_keeps_configuration arg self :
  ROM.configuration (ROM.after (ROM.train arg self)) = ROM.configuration self.
Proof. apply train_frame. Qed.

(** X3. Training a placeholder does not load it: after any call of train on
    a facade with pickled = true, successful or not, evaluate still raises
    "has not been loaded yet". *)
Theorem train_leaves_placeholder_unloaded arg self request internal :
  ROM.pickled self = true →
  inputToInternal request = Returns internal →
  ROM.evaluate request (ROM.after (ROM.train arg self))
  = Raises (Raised RuntimeError (NotLoaded (ROM.name self))).
Proof.
  intros Hp Hin. destruct (train_frame arg self) as [Hconf _].
  unfold ROM.configuration in Hconf. injection Hconf as Hname _ Hpick _ _ _ _.
  unfold ROM.evaluate. rewrite Hin. simpl. by rewrite Hpick, Hp, Hname.
Qed.

(** X4. A HistorySet whose histories do not share the pivot index is
    refused before anything happens: train raises the IOError "is not
    synchonized" and leaves the facade exactly as it was, the training set
    not stored and no backend touched. *)
Theorem train_refuses_unsynchronized self (d : DataObject) :
  typeOf d = "HistorySet" →
  checkIndexAlignment d (ROM.pivotParameterId self) = false →
  ROM.train (ROM.FromData (InData d)) self
  = ROM.Run (Raises (Raised IOError (NotSynchronized (nameOf d)))) self [].
Proof.
  intros Htype Halign. apply train_unsynchronized.
  unfold ROM.unsynchronized. rewrite Htype, Halign. done.
Qed.

(** X5. A facade that holds no instance, as the constructor leaves it,
    cannot be trained: train stores the training set and then raises an
    IndexError; the trained flag is unchanged and no backend is called. *)
Theorem train_without_instance_raises self data internal :
  ROM.supervisedContainer self = [] →
  ROM.unsynchronized self data = None →
  inputToInternal data = Returns internal →
  ROM.train (ROM.FromData data) self
  = ROM.Run (Raises (Raised IndexError IndexOutOfRange))
      (ROM.set_trainingSet (Some (replaceVariablesNamesWithAliasSystem internal)) self)
      [].
Proof.
  intros Hroms Hsync Hin. unfold ROM.train.
  rewrite bind_get, Hsync, bind_mret, Hin, bind_lift_returns, bind_modify.
  unfold mbind, ROM.M_bind, ROM.on_instance. simpl. by rewrite Hroms.
Qed.

(** Lines 326-327 and 362-364: with segmentation, or with a static training
    set, the first held instance alone is trained, on the whole set. *)
Lemma train_delegates_first self data internal rom roms :
  ROM.unsynchronized self data = None →
  inputToInternal data = Returns internal →
  ROM.supervisedContainer self = rom :: roms →
  ROM.segment self = true
  ∨ ROM.any_list (replaceVariablesNamesWithAliasSystem internal) = false →
  let ts := replaceVariablesNamesWithAliasSystem internal in
  let original := b_setAssembledObjects (ROM.assemblerDict self) rom in
  let r := ROM.train (ROM.FromData data) self in
  ROM.calls r = [ROM.TrainCall 0 ts]
  ∧ ROM.outcome r = (b_train ts original).1
  ∧ ROM.supervisedContainer (ROM.after r) = (b_train ts original).2 :: roms
  ∧ ROM.isADynamicModel (ROM.after r) = ROM.isADynamicModel self
  ∧ ROM.historySteps (ROM.after r) = ROM.historySteps self.
Proof.
  intros Hsync Hin Hroms Hcase ts original r. subst r.
  rewrite (train_unfold _ _ _ _ _ Hsync Hin Hroms), then_modify. fold ts.
  assert (Hcall : (if ROM.segment self then ROM.call_train 0 ts
                   else ROM.train_plain self ts) (ROM.prepared self ts)
                  = ROM.call_train 0 ts (ROM.prepared self ts)).
  { destruct Hcase as [->|Hstatic]; [done|].
    destruct (ROM.segment self); [done|].
    unfold ROM.train_plain. fold ts in Hstatic. by rewrite Hstatic. }
  rewrite Hcall, (call_train_run 0 ts _ 0 original).
  - simpl. rewrite Hroms. simpl. fold original.
    by destruct (b_train ts original).1 as [[]|e].
  - simpl. by rewrite Hroms.
  - simpl. by rewrite Hroms.
Qed.

(** X6. On a training set without any sequence-of-sequences and without
    segmentation, train fits the first held instance, and only that one, on
    the whole set: one backend call, the other held instances untouched, the
    outcome that of the fit, and the facade not marked as time-dependent. *)
Theorem train_static_fits_first self data internal rom roms :
  ROM.unsynchronized self data = None →
  inputToInternal data = Returns internal →
  ROM.supervisedContainer self = rom :: roms →
  ROM.segment self = false →
  ROM.any_list (replaceVariablesNamesWithAliasSystem internal) = false →
  let ts := replaceVariablesNamesWithAliasSystem internal in
  let original := b_setAssembledObjects (ROM.assemblerDict self) rom in
  let r := ROM.train (ROM.FromData data) self in
  ROM.calls r = [ROM.TrainCall 0 ts]
  ∧ ROM.outcome r = (b_train ts original).1
  ∧ ROM.supervisedContainer (ROM.after r) = (b_train ts original).2 :: roms
  ∧ ROM.isADynamicModel (ROM.after r) = ROM.isADynamicModel self.
Proof.
  intros Hsync Hin Hroms _ Hstatic ts original r.
  destruct (train_delegates_first self data internal rom roms Hsync Hin Hroms
              (or_intror Hstatic)) as (? & ? & ? & ? & _).
  done.
Qed.


Lemma for_each_app {A} (xs ys : list A) (body : A → M unit) self :
  ROM.for_each (xs ++ ys) body self
  = (ROM.for_each xs body;; ROM.for_each ys body) self.
Proof.
  revert self. induction xs as [|x xs IH]; intros self; simpl.
  - by rewrite bind_mret.
  - unfold mbind, ROM.M_bind in *.
    destruct (body x self) as [[[]|e] s c]; [|done].
    rewrite IH.
    destruct (ROM.for_each xs body s) as [[[]|e] s' c']; [|done].
    destruct (ROM.for_each ys body s') as [o s'' c'']. by rewrite app_assoc.
Qed.

(** The loop of lines 359-360 over the first [n] time steps from [t0], the
    container holding further instances after them. *)
Lemma chain_loop_prefix (original : B) (slices : list (dict scalar)) :
  ∀ n t0 trained rest (s : ROM.obj scalar Assembled B),
  ROM.supervisedContainer s = trained ++ replicate n original ++ rest →
  length trained = t0 →
  (t0 + n ≤ length slices)%nat →
  Forall (λ slice, (b_train slice original).1 = Returns tt) (take n (drop t0 slices)) →
  ROM.for_each (seq t0 n) (λ t,
      slice ← ROM.lift (py_index slices (Z.of_nat t));
      ROM.call_train (Z.of_nat t) slice) s
  = ROM.Run (Returns tt)
      (ROM.set_supervisedContainer
         (trained ++ ((λ slice, (b_train slice original).2) <$> take n (drop t0 slices))
                  ++ rest) s)
      (imap (λ i slice, ROM.TrainCall (t0 + i) slice) (take n (drop t0 slices))).
Proof.
  induction n as [|n IH]; intros t0 trained rest s Hc Ht0 Hlen Hok.
  - simpl. simpl in Hc. rewrite <- Hc. by destruct s.
  - destruct (lookup_lt_is_Some_2 slices t0) as [slice Hslice]; [lia|].
    rewrite (drop_S _ _ _ Hslice) in Hok |- *. simpl in Hok |- *.
    apply Forall_cons in Hok as [Hfit Hok].
    erewrite bind_returns; last first.
    { rewrite (py_index_nat _ _ _ Hslice), bind_lift_returns.
      rewrite (call_train_run _ _ _ t0 original).
      - rewrite Hfit. reflexivity.
      - apply py_position_nat.
        rewrite Hc, !length_app, length_replicate. simpl. lia.
      - rewrite Hc, lookup_app_r by lia.
        replace (t0 - length trained)%nat with 0%nat by lia. done. }
    rewrite (IH (S t0) (trained ++ [(b_train slice original).2]) rest).
    + simpl. rewrite <- app_assoc. simpl.
      rewrite Nat.add_0_r. do 2 f_equal.
      apply imap_ext. intros i x _. simpl. f_equal. lia.
    + simpl. rewrite Hc. rewrite <- Ht0.
      rewrite insert_app_r_alt by lia.
      replace (length trained - length trained)%nat with 0%nat by lia.
      simpl. by rewrite <- app_assoc.
    + rewrite length_app. simpl. lia.
    + lia.
    + done.
Qed.

(** X8. When the fit of time step j fails while a chain is built, train
    raises that fit's exception and stops: the container has already been
    replaced by N copies of the first held instance, of which the first j are
    trained, the j-th is as the failed fit left it and the others are
    untouched copies; the later time steps are not fitted, and the trained
    flag keeps the value it had. *)
Theorem train_chain_stops_at_failed_fit self data internal rom roms hs steps slices j bad e :
  ROM.unsynchronized self data = None →
  inputToInternal data = Returns internal →
  ROM.supervisedContainer self = rom :: roms →
  ROM.segment self = false →
  ROM.canHandleDynamicData self = false →
  replaceVariablesNamesWithAliasSystem internal !! ROM.pivotParameterId self
  = Some (Nested hs) →
  last hs = Some steps →
  historySnapShoots (replaceVariablesNamesWithAliasSystem internal) (length steps)
  = SnapList slices →
  (j < length steps)%nat →
  slices !! j = Some bad →
  let original := b_setAssembledObjects (ROM.assemblerDict self) rom in
  Forall (λ slice, (b_train slice original).1 = Returns tt) (take j slices) →
  (b_train bad original).1 = Raises e →
  let r := ROM.train (ROM.FromData data) self in
  ROM.outcome r = Raises e
  ∧ ROM.calls r
    = imap (λ t slice, ROM.TrainCall t slice) (take j slices) ++ [ROM.TrainCall j bad]
  ∧ ROM.supervisedContainer (ROM.after r)
    = ((λ slice, (b_train slice original).2) <$> take j slices)
      ++ (b_train bad original).2 :: replicate (length steps - S j) original
  ∧ length (ROM.supervisedContainer (ROM.after r)) = length steps
  ∧ ROM.amITrained (ROM.after r) = ROM.amITrained self.
Proof.
  intros Hsync Hin Hroms Hseg Hcan Hp Hlast Hsnap Hj Hbad original Hfit Hfail r.
  subst r. set (ts := replaceVariablesNamesWithAliasSystem internal) in *.
  pose proof (lookup_lt_Some _ _ _ Hbad) as Hjs.
  rewrite (train_unfold _ _ _ _ _ Hsync Hin Hroms), Hseg, then_modify. fold ts.
  unfold ROM.train_plain.
  rewrite (any_list_true _ _ _ Hp), bind_modify, Hp.
  rewrite (py_index_last _ _ Hlast), bind_lift_returns, bind_modify.
  destruct (Nat.eqb_spec (length steps) 0) as [Hz|_]; [lia|].
  rewrite Hcan. unfold ROM.train_chain. rewrite Hsnap, bind_get.
  simpl ROM.supervisedContainer. rewrite Hroms. simpl alter.
  rewrite py_index_first, bind_lift_returns, bind_modify. fold original.
  assert (Hseq : seq 0 (length steps)
                 = seq 0 j ++ j :: seq (S j) (length steps - S j)).
  { replace (length steps) with (j + S (length steps - S j))%nat at 1 by lia.
    by rewrite seq_app. }
  rewrite Hseq, for_each_app.
  erewrite bind_returns; last first.
  { apply (chain_loop_prefix original slices j 0 []
             (replicate (S (length steps - S j)) original)).
    - unfold ROM.set_supervisedContainer. cbn [ROM.supervisedContainer].
      rewrite app_nil_l, <- replicate_add. f_equal. lia.
    - done.
    - simpl. lia.
    - by rewrite drop_0. }
  rewrite drop_0. simpl seq. simpl ROM.for_each.
  erewrite (bind_raises (_ ≫= _)); last first.
  { rewrite (py_index_nat _ _ _ Hbad), bind_lift_returns.
    rewrite (call_train_run _ _ _ j original).
    - rewrite Hfail. reflexivity.
    - apply py_position_nat. simpl.
      rewrite length_app, length_fmap, length_take. simpl. lia.
    - simpl. rewrite lookup_app_r; rewrite length_fmap, length_take; [|lia].
      replace (j - j `min` length slices)%nat with 0%nat by lia. done. }
  simpl. split_and!; [done|done| | |done].
  - rewrite insert_app_r_alt; rewrite length_fmap, length_take; [|lia].
    replace (j - j `min` length slices)%nat with 0%nat by lia. done.
  - rewrite length_insert, !length_app, length_fmap, length_take. simpl.
    rewrite length_replicate. lia.
Qed.

End TrainMore.

(** * Further properties of evaluate, reset and confidence *)

Section EvaluateMore.
Context {scalar DataObject Assembled B P : Type}.
Context `{!Backend scalar Assembled B, !Host scalar DataObject B}.
Context `{!ROM.BackendExtras scalar P B}.
Implicit Types (self : ROM.obj scalar Assembled B).
Implicit Types (request : input scalar DataObject).
Implicit Types (acc slice : results scalar).

Lemma shape_atleast_1d (a : ndarray scalar) : shape (np_atleast_1d a) ≠ [].
Proof. unfold np_atleast_1d. by destruct (shape a) eqn:Hs; simpl; rewrite ?Hs. Qed.

(** X9. No array that evaluate returns is a scalar: whatever the instances
    return, every value of the result has at least one dimension. *)
Theorem evaluate_returns_arrays self request res k a :
  ROM.evaluate request self = Returns res →
  res !! k = Some a →
  shape a ≠ [].
Proof.
  unfold ROM.evaluate. intros Hres Hk.
  destruct (inputToInternal request) as [internal|e]; [simpl in Hres|done].
  destruct (ROM.pickled self); [done|].
  destruct (negb (ROM.amITrained self)); [done|].
  destruct (if ROM.segment self then _ else _) as [resultsDict|e]; [|done].
  simpl in Hres. injection Hres as <-.
  rewrite lookup_fmap in Hk. destruct (resultsDict !! k) as [b|]; [|done].
  injection Hk as <-. apply shape_atleast_1d.
Qed.

(** X10. The keys of the result are those of the first instance's result;
    when the next instance's result lacks one of them, evaluate raises a
    KeyError for a key that the first result has and the second has not. *)
Theorem evaluate_missing_key_raises self request internal rom0 rom1 roms r0 r1 k :
  inputToInternal request = Returns internal →
  ROM.pickled self = false →
  ROM.amITrained self = true →
  ROM.segment self = false →
  ROM.supervisedContainer self = rom0 :: rom1 :: roms →
  b_run rom0 internal = Returns r0 →
  b_run rom1 internal = Returns r1 →
  is_Some (r0 !! k) →
  r1 !! k = None →
  ∃ missing,
    ROM.evaluate request self = Raises (Raised KeyError (MissingKey missing))
    ∧ is_Some (r0 !! missing) ∧ r1 !! missing = None.
Proof.
  intros Hin Hp Ht Hs Hroms Hr0 Hr1 Hk0 Hk1.
  unfold ROM.evaluate. rewrite Hin, Hp, Ht, Hs, Hroms. simpl.
  rewrite Hr0. simpl. rewrite map_size_empty. simpl.
  rewrite (right_id_L ∅ (∪)), Hr1. simpl.
  destruct (Nat.eqb_spec (size r0) 0) as [Hz|_].
  { apply map_size_empty_inv in Hz. subst r0. by destruct Hk0. }
  unfold ROM.append_slice.
  destruct (filter _ _) as [|missing ks] eqn:Hf.
  - assert (Hin' : k ∈ filter (λ k, r1 !! k = None) (elements (dom r0))).
    { apply list_elem_of_filter. split; [done|].
      by apply elem_of_elements, elem_of_dom. }
    rewrite Hf in Hin'. by apply elem_of_nil in Hin'.
  - assert (Hm : missing ∈ missing :: ks) by left.
    rewrite <- Hf in Hm. apply list_elem_of_filter in Hm as [Hnone Hdom].
    apply elem_of_elements, elem_of_dom in Hdom.
    exists missing. done.
Qed.

(** X11. An instance whose result has no key contributes nothing: when the
    first held instance returns an empty result, evaluate gives what it would
    give without that instance, so the keys come from the first instance
    that returns some. *)
Theorem evaluate_skips_empty_result self request internal rom roms :
  inputToInternal request = Returns internal →
  ROM.segment self = false →
  ROM.supervisedContainer self = rom :: roms →
  b_run rom internal = Returns ∅ →
  ROM.evaluate request self
  = ROM.evaluate request (ROM.set_supervisedContainer roms self).
Proof.
  intros Hin Hs Hroms Hrun. unfold ROM.evaluate. rewrite Hin. simpl.
  rewrite Hs, Hroms. simpl. rewrite Hrun. simpl.
  rewrite map_size_empty. simpl. by rewrite (right_id_L ∅ (∪)).
Qed.

Lemma evaluate_loop_app roms1 roms2 (internal : dict scalar) acc :
  ROM.evaluate_loop (roms1 ++ roms2) internal acc
  = ROM.evaluate_loop roms1 internal acc ≫= ROM.evaluate_loop roms2 internal.
Proof.
  revert acc. induction roms1 as [|rom roms1 IH]; intros acc; [done|].
  simpl. destruct (b_run rom internal) as [slice|e]; [simpl|done].
  destruct (if (size acc =? 0)%nat then _ else _) as [acc'|e]; [simpl|done].
  apply IH.
Qed.

(** X12. The instances are run one after the other and the first failure
    ends the evaluation: if evaluate returns on the first instances of the
    container and the run of the next one raises, evaluate raises that
    exception, whatever instances follow. *)
Theorem evaluate_stops_at_failed_run self request internal ahead rom behind res e :
  inputToInternal request = Returns internal →
  ROM.segment self = false →
  ROM.evaluate request (ROM.set_supervisedContainer ahead self) = Returns res →
  b_run rom internal = Raises e →
  ROM.evaluate request (ROM.set_supervisedContainer (ahead ++ rom :: behind) self)
  = Raises e.
Proof.
  intros Hin Hs Hres Hrun. unfold ROM.evaluate in *. rewrite Hin in *.
  simpl in *. destruct (ROM.pickled self); [done|].
  destruct (negb (ROM.amITrained self)); [done|].
  rewrite Hs in *. rewrite evaluate_loop_app.
  destruct (ROM.evaluate_loop ahead internal ∅) as [acc|e']; [simpl|done].
  by rewrite Hrun.
Qed.

(** X13. After reset, evaluate returns no result on any request: the facade
    holds the same number of instances, each reset, and is untrained, so
    evaluate raises, with "has not been trained yet" unless the facade is a
    placeholder. *)
Theorem evaluate_after_reset_raises self request :
  returned (ROM.evaluate request (ROM.reset self)) = false
  ∧ length (ROM.supervisedContainer (ROM.reset self))
    = length (ROM.supervisedContainer self)
  ∧ ∀ internal, inputToInternal request = Returns internal →
      ROM.evaluate request (ROM.reset self)
      = Raises (Raised RuntimeError
                  (if ROM.pickled self then NotLoaded (ROM.name self)
                   else NotTrained (ROM.name self))).
Proof.
  unfold ROM.evaluate. simpl. split_and!.
  - destruct (inputToInternal request); [simpl|done]. by destruct (ROM.pickled self).
  - by rewrite length_fmap.
  - intros internal ->. simpl. by destruct (ROM.pickled self).
Qed.

(** X14. confidence does not look at the placeholder flag: on an untrained
    facade it raises "has not been trained yet" also when the facade is a
    placeholder, for which evaluate raises "has not been loaded yet". *)
Theorem confidence_before_train_raises self request internal :
  inputToInternal request = Returns internal →
  ROM.amITrained self = false →
  ROM.confidence request self
  = Raises (Raised RuntimeError (NotTrained (ROM.name self)))
  ∧ (ROM.pickled self = true →
     ROM.evaluate request self
     = Raises (Raised RuntimeError (NotLoaded (ROM.name self)))).
Proof.
  intros Hin Ht. unfold ROM.confidence, ROM.evaluate. rewrite Hin, Ht. simpl.
  split; [done|]. by intros ->.
Qed.

(** X15. On a trained facade that holds one instance, confidence returns
    that instance's confidence as it is: unlike evaluate it does not turn
    scalars into arrays. *)
Theorem confidence_of_single_instance self request internal rom r :
  inputToInternal request = Returns internal →
  ROM.amITrained self = true →
  ROM.supervisedContainer self = [rom] →
  ROM.b_confidence rom internal = Returns r →
  ROM.confidence request self = Returns r.
Proof.
  intros Hin Ht Hroms Hr. unfold ROM.confidence. rewrite Hin, Ht, Hroms. simpl.
  rewrite Hr. simpl. rewrite map_size_empty. simpl.
  by rewrite (right_id_L ∅ (∪)).
Qed.

Lemma appended_shape acc slice k a :
  map_imap (λ k v, np_append v <$> slice !! k) acc !! k = Some a →
  shape a = [length (ravel a)].
Proof.
  rewrite map_lookup_imap. destruct (acc !! k) as [v|]; [simpl|done].
  destruct (slice !! k) as [w|]; [simpl|done]. by intros [= <-].
Qed.

Lemma confidence_loop_appends roms (internal : dict scalar) rs : ∀ acc,
  Forall2 (λ rom r, ROM.b_confidence rom internal = Returns r) roms rs →
  Forall (λ r : results scalar, dom acc ⊆ dom r) rs →
  size acc ≠ 0 →
  ∃ res, ROM.confidence_loop roms internal acc = Returns res
    ∧ dom res = dom acc
    ∧ (∀ k v, acc !! k = Some v →
        ∃ segs, Forall2 (λ r s, r !! k = Some s) rs segs
          ∧ ravel <$> res !! k = Some (ravel v ++ concat (ravel <$> segs)))
    ∧ ((∀ k a, acc !! k = Some a → shape a = [length (ravel a)]) →
       ∀ k a, res !! k = Some a → shape a = [length (ravel a)]).
Proof.
  intros acc Hrun. revert acc.
  induction Hrun as [|rom r roms rs Hr Hrun IH]; intros acc Hdom Hsize.
  - exists acc. split_and!; [done..| |done].
    intros k v Hk. exists []. split; [constructor|].
    rewrite Hk. simpl. by rewrite app_nil_r.
  - apply Forall_cons in Hdom as [Hsub Hdom].
    simpl. rewrite Hr. simpl.
    destruct (Nat.eqb_spec (size acc) 0) as [|_]; [done|].
    rewrite (append_slice_returns _ _ Hsub). simpl.
    set (acc' := map_imap _ acc).
    assert (Hd : dom acc' = dom acc) by by apply append_slice_dom.
    destruct (IH acc') as (res & Hres & Hdres & Hsegs & Hshape).
    { by rewrite Hd. }
    { rewrite <- size_dom, Hd, size_dom. done. }
    exists res. split_and!; [done|congruence| |].
    + intros k v Hk.
      assert (k ∈ dom r) as [w Hw]%elem_of_dom
        by (apply Hsub, elem_of_dom; eauto).
      destruct (Hsegs k (np_append v w)) as (segs & Hall & Hcat).
      { by apply append_slice_lookup. }
      exists (w :: segs). split; [by constructor|].
      rewrite Hcat, ravel_append, fmap_cons. simpl. by rewrite <- app_assoc.
    + intros _. apply Hshape. intros k a. apply appended_shape.
Qed.

(** X16. On a trained facade that holds a chain of at least two instances,
    confidence returns, for every key of the first instance's confidence, a
    one-dimensional array: the instances' values for that key, flattened and
    concatenated in the order of the chain.  The placeholder flag and the
    segmentation flag play no part. *)
Theorem confidence_chain_concatenates self request internal r0 r1 rs k v0 :
  inputToInternal request = Returns internal →
  ROM.amITrained self = true →
  Forall2 (λ rom r, ROM.b_confidence rom internal = Returns r)
          (ROM.supervisedContainer self) (r0 :: r1 :: rs) →
  Forall (λ r : results scalar, dom r0 ⊆ dom r) (r1 :: rs) →
  r0 !! k = Some v0 →
  ∃ res segs a,
    ROM.confidence request self = Returns res
    ∧ dom res = dom r0
    ∧ Forall2 (λ r s, r !! k = Some s) (r0 :: r1 :: rs) segs
    ∧ res !! k = Some a
    ∧ ravel a = concat (ravel <$> segs)
    ∧ shape a = [length (ravel a)].
Proof.
  intros Hin Ht Hrun Hdom Hk.
  unfold ROM.confidence. rewrite Hin, Ht. simpl.
  destruct (ROM.supervisedContainer self) as [|rom roms]; [by inversion Hrun|].
  apply Forall2_cons in Hrun as [Hr0 Hrun].
  simpl. rewrite Hr0. simpl. rewrite map_size_empty. simpl.
  rewrite (right_id_L ∅ (∪)).
  destruct roms as [|rom1 roms]; [by inversion Hrun|].
  apply Forall2_cons in Hrun as [Hr1 Hrun].
  apply Forall_cons in Hdom as [Hsub Hdom].
  simpl. rewrite Hr1. simpl.
  destruct (Nat.eqb_spec (size r0) 0) as [Hz|Hnz].
  { apply map_size_empty_inv in Hz. by rewrite Hz in Hk. }
  rewrite (append_slice_returns _ _ Hsub). simpl.
  set (acc := map_imap _ r0).
  assert (Hd : dom acc = dom r0) by by apply append_slice_dom.
  assert (k ∈ dom r1) as [v1 Hv1]%elem_of_dom
    by (apply Hsub, elem_of_dom; eauto).
  assert (Hacc : acc !! k = Some (np_append v0 v1)) by by apply append_slice_lookup.
  destruct (confidence_loop_appends roms internal rs acc Hrun)
    as (res & Hres & Hdres & Hsegs & Hshape).
  { by rewrite Hd. }
  { rewrite <- size_dom, Hd, size_dom. done. }
  destruct (Hsegs k _ Hacc) as (segs & Hall & Hcat).
  destruct (res !! k) as [a|] eqn:Ha; [|done].
  exists res, (v0 :: v1 :: segs), a. split_and!.
  - done.
  - congruence.
  - by repeat constructor.
  - done.
  - simpl in Hcat. injection Hcat as ->. simpl. by rewrite <- app_assoc.
  - eapply Hshape; [|exact Ha]. intros k' a'. apply appended_shape.
Qed.

End EvaluateMore.

(** * Further properties of serialization and of _copyModel *)

Section LoadFacts.
Context {scalar DataObject Assembled B P : Type}.
Context `{!Backend scalar Assembled B, !Host scalar DataObject B}.
Context `{!ROM.BackendExtras scalar P B}.
Implicit Types (self other : ROM.obj scalar Assembled B).

Lemma setstate_trained (own d : gmap string (ROM.attr scalar Assembled B)) :
  d !! "amITrained" = Some (ROM.ABool true) →
  ROM.__setstate__ own d
  = Returns (<["assemblerDict" := ROM.AAssembler ∅]> (d ∪ own)).
Proof.
  intros Htrained. unfold ROM.__setstate__, dict_get. by rewrite Htrained.
Qed.

(** X17. Serializing a trained facade and restoring it gives the facade
    back: the serialized state holds the container, no instance is asked of
    the factory, and the restored object has every attribute as it was
    except for the assembler table, which is empty. *)
Theorem trained_facade_round_trip self :
  ROM.amITrained self = true →
  (∃ d, ROM.__getstate__ self = Returns d
     ∧ d !! "supervisedContainer"
       = Some (ROM.AInstances (ROM.supervisedContainer self))
     ∧ d !! "assemblerDict" = None)
  ∧ ∃ d', ROM.restore self = Returns d'
      ∧ ROM.object_of d'
        = Some (ROM.Obj (ROM.name self) (ROM.subType self) true
                  (ROM.pickled self) (ROM.pivotParameterId self)
                  (ROM.canHandleDynamicData self) (ROM.isADynamicModel self)
                  (ROM.supervisedContainer self) (ROM.historySteps self)
                  (ROM.segment self) (ROM.seed self) ∅ (ROM.trainingSet self)).
Proof.
  intros Htrained.
  assert (Hget : ROM.__getstate__ self
                 = Returns (delete "assemblerDict" (ROM.__dict__ self))).
  { destruct (dict_has_attributes self) as [Hasm _].
    unfold ROM.__getstate__, dict_pop. rewrite Htrained. simpl.
    by rewrite Hasm. }
  split.
  - eexists. split; [exact Hget|]. split; [|apply lookup_delete_eq].
    rewrite lookup_delete_ne by done. apply dict_has_attributes.
  - unfold ROM.restore. rewrite Hget.
    change (Returns ?d ≫= ROM.__setstate__ ∅) with (ROM.__setstate__ ∅ d).
    rewrite setstate_trained.
    + eexists. split; [done|].
      destruct self as [n st tr pk pv ch dy roms hsteps sg sd asm [ts|]];
        simpl in *; subst tr; by vm_compute.
    + destruct self as [n st tr pk pv ch dy roms hsteps sg sd asm [ts|]];
        simpl in *; subst tr; by vm_compute.
Qed.

(** X18. Restoring an untrained facade needs the factory: when it cannot
    give an instance of the recorded backend type, restoring raises the
    factory's exception. *)
Theorem untrained_restore_needs_factory self e :
  ROM.amITrained self = false →
  returnInstance (ROM.subType self) = Raises e →
  ROM.restore self = Raises e.
Proof.
  intros Htrained Hfail. unfold ROM.restore.
  rewrite (getstate_untrained _ Htrained). simpl.
  unfold ROM.__setstate__, dict_get.
  assert (Hflag : delete "assemblerDict"
                    (delete "supervisedContainer" (ROM.__dict__ self))
                  !! "amITrained" = Some (ROM.ABool false)).
  { destruct self as [n st tr pk pv ch dy roms hsteps sg sd asm [ts|]];
      simpl in *; subst tr; by vm_compute. }
  assert (Hsub : (delete "assemblerDict"
                    (delete "supervisedContainer" (ROM.__dict__ self)) ∪ ∅)
                 !! "subType" = Some (ROM.AStr (ROM.subType self))).
  { destruct self as [n st tr pk pv ch dy roms hsteps sg sd asm [ts|]];
      simpl in *; by vm_compute. }
  rewrite Hflag. simpl. rewrite Hsub, Hfail. done.
Qed.

(** X19. _copyModel on a placeholder, handed a ROM that has a training set:
    no backend is fitted; the facade is no longer a placeholder, it has the
    argument's trained flag, seed and training set, and it holds the
    argument's instances, each told in setAdditionalParams the seed that the
    placeholder had before the copy (not the argument's). *)
Theorem copyModel_loads_the_argument (paramInput : P) self other ts :
  ROM.trainingSet other = Some ts →
  let r := ROM._copyModel paramInput (ROM.FromROM other) self in
  ROM.outcome r = Returns tt
  ∧ ROM.calls r = []
  ∧ ROM.pickled (ROM.after r) = false
  ∧ ROM.amITrained (ROM.after r) = ROM.amITrained other
  ∧ ROM.seed (ROM.after r) = ROM.seed other
  ∧ ROM.trainingSet (ROM.after r) = Some ts
  ∧ ROM.supervisedContainer (ROM.after r)
    = ROM.b_setAdditionalParams (ROM.LoadSettings (ROM.seed self) paramInput)
        <$> ROM.supervisedContainer other.
Proof.
  intros Hts r. subst r. unfold ROM._copyModel, ROM.train.
  rewrite bind_get.
  erewrite bind_returns; last first.
  { by rewrite Hts, bind_lift_returns, !bind_modify. }
  rewrite !bind_modify. done.
Qed.

(** X20. When train raises inside _copyModel, _copyModel ends there: it has
    the outcome, the final facade and the backend calls of train alone, so
    the instances are not handed the load settings and a placeholder stays
    a placeholder. *)
Theorem copyModel_stops_when_train_raises (paramInput : P) arg self e :
  ROM.outcome (ROM.train arg self) = Raises e →
  ROM._copyModel paramInput arg self = ROM.train arg self
  ∧ ROM.pickled (ROM.after (ROM._copyModel paramInput arg self)) = ROM.pickled self.
Proof.
  intros Hraise.
  assert (Heq : ROM._copyModel paramInput arg self = ROM.train arg self).
  { unfold ROM._copyModel. rewrite bind_get.
    destruct (ROM.train arg self) as [o s c] eqn:Htrain. simpl in Hraise. subst o.
    by apply bind_raises. }
  split; [done|]. rewrite Heq.
  destruct (train_frame arg self) as [Hconf _].
  unfold ROM.configuration in Hconf. by injection Hconf.
Qed.

End LoadFacts.

(** * Properties of the cross-validation score *)

Section CrossValidationFacts.
Context {scalar DataObject Assembled B CV Metric : Type}.
Context `{!Backend scalar Assembled B, !Host scalar DataObject B}.
Context `{!ROM.CrossValidation scalar DataObject Assembled B CV Metric}.
Implicit Types (self : ROM.obj scalar Assembled B).
Implicit Types (trainingSet : input scalar DataObject).
Implicit Types (outputMetrics : list (string * Metric)).

(** The target that an output of the cross validation stands for. *)
Local Abbreviation target_of cv :=
  (λ output : string * Metric,
     ROM.targetName (ROM.returnCharacteristicsOfCvGivenOutputName cv output.1)).

(** With a new target at every output, the loop of lines 487-492 keeps one
    entry, under the name of the facade: the metric of the last output. *)
Lemma collect_metrics_distinct (cv : CV) selfName outputMetrics :
  ∀ exploredTargets (cvMetrics : gmap string (string * Metric)),
  NoDup (exploredTargets ++ (target_of cv <$> outputMetrics)) →
  ROM.collect_metrics cv selfName outputMetrics exploredTargets cvMetrics
  = Returns (match last outputMetrics with
             | Some (cvKey, metricValues) =>
                 <[selfName :=
                     (ROM.metricType (ROM.returnCharacteristicsOfCvGivenOutputName cv cvKey),
                      metricValues)]> cvMetrics
             | None => cvMetrics
             end).
Proof.
  induction outputMetrics as [|[cvKey metricValues] outputMetrics IH];
    intros exploredTargets cvMetrics Hnodup; [done|].
  simpl in *.
  assert (Hnew : ROM.targetName (ROM.returnCharacteristicsOfCvGivenOutputName cv cvKey)
                 ∉ exploredTargets).
  { apply NoDup_app in Hnodup as (_ & Hdisj & _). intros Hin.
    apply (Hdisj _ Hin). by left. }
  rewrite bool_decide_eq_false_2 by done.
  rewrite IH by (by rewrite <- app_assoc).
  destruct outputMetrics as [|[cvKey' metricValues'] outputMetrics']; [done|].
  rewrite !last_cons. destruct (last outputMetrics') as [[? ?]|];
    by rewrite insert_insert_eq.
Qed.

(** A target met twice ends the loop with the NameError of line 490. *)
Lemma collect_metrics_repeated (cv : CV) selfName outputMetrics :
  ∀ exploredTargets (cvMetrics : gmap string (string * Metric)),
  NoDup exploredTargets →
  ¬ NoDup (exploredTargets ++ (target_of cv <$> outputMetrics)) →
  ROM.collect_metrics cv selfName outputMetrics exploredTargets cvMetrics
  = Raises (Raised (OtherException "NameError") (OtherMessage "rom")).
Proof.
  induction outputMetrics as [|[cvKey metricValues] outputMetrics IH];
    intros exploredTargets cvMetrics Hexp Hdup.
  - simpl in Hdup. by rewrite app_nil_r in Hdup.
  - simpl in *. case_bool_decide as Hin; [done|].
    apply IH.
    + apply NoDup_app. split_and!; [done| |apply NoDup_singleton].
      intros t Ht Ht'. apply list_elem_of_singleton in Ht'. by subst t.
    + by rewrite <- app_assoc.
Qed.

(** X21. _checkCV allows the cross validation exactly when the options of
    the instance have an entry n_splits under SciKitLearn and the training
    set is at least that large; without the entry it says no. *)
Theorem checkCV_allows_when_large_enough (cv : CV) (trainingSize : nat) :
  ROM._checkCV (Some cv) trainingSize = Returns true
  ↔ ∃ written n,
      ROM.initializationOptionDict cv !! "SciKitLearn" ≫= (.!! "n_splits")
      = Some written
      ∧ ROM.intConversion written = Some n
      ∧ (n ≤ Z.of_nat trainingSize)%Z.
Proof.
  unfold ROM._checkCV.
  destruct (ROM.initializationOptionDict cv !! "SciKitLearn" ≫= (.!! "n_splits"))
    as [written|]; [|split; [done|by intros (? & ? & ? & _)]].
  destruct (ROM.intConversion written) as [n|] eqn:Hn.
  - destruct (Z.ltb_spec (Z.of_nat trainingSize) n); simpl; split.
    + done.
    + intros (w & n' & [= <-] & Hn' & Hle). rewrite Hn in Hn'.
      injection Hn' as <-. lia.
    + intros _. exists written, n. split_and!; [done|done|lia].
    + done.
  - split; [done|]. intros (w & n' & [= <-] & Hn' & _). congruence.
Qed.

(** X22. With more than one instance in the container, convergence raises an
    IOError before it looks at the cross-validation instance, even when
    there is none, and leaves the facade as it was. *)
Theorem convergence_refuses_several_instances (cvInstance : option CV) trainingSet self :
  (1 < length (ROM.supervisedContainer self))%nat →
  ROM.convergence cvInstance trainingSet self
  = ROM.Run (Raises (Raised IOError
               (OtherMessage "Cross Validation Method is not implemented for Clustered ROMs")))
            self [].
Proof.
  intros Hlen. unfold ROM.convergence, ROM._crossValidationScore.
  rewrite bind_get.
  destruct (Nat.ltb_spec 1 (length (ROM.supervisedContainer self))); [done|lia].
Qed.

Lemma crossValidationScore_unfold (cvInstance : option CV) trainingSet self useCV :
  (length (ROM.supervisedContainer self) ≤ 1)%nat →
  ROM._checkCV cvInstance (ROM.training_len trainingSet) = Returns useCV →
  ROM._crossValidationScore cvInstance trainingSet self
  = (if useCV then
       match cvInstance with
       | None => ROM.raiseAnError AttributeError (MissingAttribute "_pp")
       | Some cv =>
           outputMetrics ← (λ self, let '(o, self') := ROM.cv_run cv self trainingSet in
                                    ROM.Run o self' []);
           self ← ROM.get;
           cvMetrics ← ROM.lift (ROM.collect_metrics cv (ROM.name self) outputMetrics [] ∅);
           mret (Some cvMetrics)
       end
     else mret None) (if useCV then ROM.reset self else self).
Proof.
  intros Hlen Hcheck. unfold ROM._crossValidationScore.
  rewrite bind_get.
  destruct (Nat.ltb_spec 1 (length (ROM.supervisedContainer self))); [lia|].
  rewrite bind_mret, Hcheck, bind_lift_returns.
  destruct useCV; [|done]. by rewrite bind_modify.
Qed.

(** X23. When _checkCV says no, convergence returns None and does not touch
    the facade: in particular it is not reset and stays trained. *)
Theorem convergence_skipped_keeps_facade (cvInstance : option CV) trainingSet self :
  (length (ROM.supervisedContainer self) ≤ 1)%nat →
  ROM._checkCV cvInstance (ROM.training_len trainingSet) = Returns false →
  ROM.convergence cvInstance trainingSet self = ROM.Run (Returns None) self [].
Proof.
  intros Hlen Hcheck. unfold ROM.convergence.
  by rewrite (crossValidationScore_unfold _ _ _ false).
Qed.

(** X24. When the cross validation is used, the facade is reset first and
    the cross-validation run is handed the reset facade; convergence leaves
    the facade as that run left it.  When every output stands for another
    target, the score has a single entry, under the name of the facade:
    the metric type and the values of the last output. *)
Theorem convergence_resets_then_scores (cv : CV) trainingSet self outputMetrics scored :
  (length (ROM.supervisedContainer self) ≤ 1)%nat →
  ROM._checkCV (Some cv) (ROM.training_len trainingSet) = Returns true →
  ROM.cv_run cv (ROM.reset self) trainingSet = (Returns outputMetrics, scored) →
  NoDup (target_of cv <$> outputMetrics) →
  ROM.convergence (Some cv) trainingSet self
  = ROM.Run
      (Returns (Some
         match last outputMetrics with
         | Some (cvKey, metricValues) =>
             {[ ROM.name scored :=
                  (ROM.metricType (ROM.returnCharacteristicsOfCvGivenOutputName cv cvKey),
                   metricValues) ]}
         | None => ∅
         end))
      scored [].
Proof.
  intros Hlen Hcheck Hrun Hnodup. unfold ROM.convergence.
  rewrite (crossValidationScore_unfold _ _ _ true) by done.
  erewrite bind_returns; last first.
  { simpl. rewrite Hrun. reflexivity. }
  rewrite bind_get, collect_metrics_distinct by done.
  rewrite bind_lift_returns. simpl.
  destruct (last outputMetrics) as [[? ?]|]; done.
Qed.

(** X25. When two outputs of the cross validation stand for the same
    target, convergence does not raise the IOError it is about to report:
    building its message reads a name that the method does not bind, so a
    NameError is raised; the facade is left reset, as the run left it. *)
Theorem convergence_repeated_target_raises_NameError
    (cv : CV) trainingSet self outputMetrics scored :
  (length (ROM.supervisedContainer self) ≤ 1)%nat →
  ROM._checkCV (Some cv) (ROM.training_len trainingSet) = Returns true →
  ROM.cv_run cv (ROM.reset self) trainingSet = (Returns outputMetrics, scored) →
  ¬ NoDup (target_of cv <$> outputMetrics) →
  ROM.convergence (Some cv) trainingSet self
  = ROM.Run (Raises (Raised (OtherException "NameError") (OtherMessage "rom")))
            scored [].
Proof.
  intros Hlen Hcheck Hrun Hdup. unfold ROM.convergence.
  rewrite (crossValidationScore_unfold _ _ _ true) by done.
  erewrite bind_returns; last first.
  { simpl. rewrite Hrun. reflexivity. }
  rewrite bind_get, collect_metrics_repeated by (done || apply NoDup_nil_2).
  by rewrite bind_lift_raises.
Qed.

End CrossValidationFacts.

(** * Further properties of the classifier's input handling *)

Section SettingsFacts.
Import LinearDiscriminantAnalysis.
Implicit Types (specs inherited : list declaration) (paramInput : list node).



End SettingsFacts.

(** * The further statements on the sample world *)

Lemma train_leaves_placeholder_unloaded_witness :
  ROM.outcome (ROM.train (ROM.FromData (DataObject:=data_object) (InDict points))
                         (placeholder false)) = Returns tt
  ∧ ROM.evaluate (DataObject:=data_object) (InDict points)
      (ROM.after (ROM.train (ROM.FromData (DataObject:=data_object) (InDict points))
                            (placeholder false)))
    = Raises (Raised RuntimeError (NotLoaded "rom")).
Proof.
  split; [vm_compute; reflexivity|].
  exact (train_leaves_placeholder_unloaded (DataObject:=data_object)
           (ROM.FromData (InDict points)) (placeholder false) (InDict points)
           points eq_refl eq_refl).
Defined.

Lemma train_refuses_unsynchronized_witness :
  ROM.train (ROM.FromData (InData (DataObject "runs" "HistorySet" false histories)))
            (configured false)
  = ROM.Run (Raises (Raised IOError (NotSynchronized "runs"))) (configured false) [].
Proof.
  exact (train_refuses_unsynchronized (configured false)
           (DataObject "runs" "HistorySet" false histories) eq_refl eq_refl).
Defined.

Lemma train_without_instance_raises_witness :
  ROM.train (ROM.FromData (DataObject:=data_object) (InDict points))
            (ROM.Obj "rom" "memo" false false "time" false false
                     ([] : list memo) [] false None ∅ None)
  = ROM.Run (Raises (Raised IndexError IndexOutOfRange))
      (ROM.Obj "rom" "memo" false false "time" false false
               ([] : list memo) [] false None ∅ (Some points))
      [].
Proof.
  exact (train_without_instance_raises (DataObject:=data_object)
           (ROM.Obj "rom" "memo" false false "time" false false
                    ([] : list memo) [] false None ∅ None)
           (InDict points) points eq_refl eq_refl eq_refl).
Defined.

Lemma train_static_fits_first_witness :
  let r := ROM.train (ROM.FromData (DataObject:=data_object) (InDict points))
                     (ROM.set_supervisedContainer
                        [Memo false None; Memo false (Some histories)]
                        (configured false)) in
  ROM.calls r = [ROM.TrainCall 0 points]
  ∧ ROM.outcome r = Returns tt
  ∧ ROM.supervisedContainer (ROM.after r)
    = [Memo true (Some points); Memo false (Some histories)]
  ∧ ROM.isADynamicModel (ROM.after r) = false.
Proof.
  exact (train_static_fits_first (DataObject:=data_object)
           (ROM.set_supervisedContainer
              [Memo false None; Memo false (Some histories)] (configured false))
           (InDict points) points (Memo false None) [Memo false (Some histories)]
           eq_refl eq_refl eq_refl eq_refl ltac:(vm_compute; reflexivity)).
Defined.


Lemma train_chain_stops_at_failed_fit_witness :
  let r := ROM.train (ROM.FromData (DataObject:=data_object) (InDict dipping))
                     (gauges false false false None [Gauge None None]) in
  ROM.outcome r
  = Raises (Raised (OtherException "ValueError") (OtherMessage "negative target"))
  ∧ ROM.calls r
    = [ROM.TrainCall 0 (slice_at 0 dipping); ROM.TrainCall 1 (slice_at 1 dipping)]
  ∧ ROM.supervisedContainer (ROM.after r)
    = [Gauge None (Some (slice_at 0 dipping)); Gauge None None; Gauge None None]
  ∧ length (ROM.supervisedContainer (ROM.after r)) = 3
  ∧ ROM.amITrained (ROM.after r) = false.
Proof.
  pose proof (train_chain_stops_at_failed_fit (DataObject:=data_object)
           (gauges false false false None [Gauge None None])
           (InDict dipping) dipping (Gauge None None) []
           [[0; 1; 2]; [0; 1; 2]]%Z [0; 1; 2]%Z
           ((λ t, slice_at t dipping) <$> seq 0 3) 1 (slice_at 1 dipping)
           (Raised (OtherException "ValueError") (OtherMessage "negative target"))
           eq_refl eq_refl eq_refl eq_refl eq_refl
           ltac:(vm_compute; reflexivity) eq_refl ltac:(vm_compute; reflexivity)
           ltac:(simpl; lia) eq_refl ltac:(repeat constructor)
           ltac:(vm_compute; reflexivity)) as Hstops.
  vm_compute in Hstops. vm_compute. exact Hstops.
Defined.

Lemma evaluate_returns_arrays_witness :
  match ROM.evaluate (DataObject:=data_object) (InDict points) trained_chain with
  | Returns res =>
      match res !! "y" with
      | Some a => shape a ≠ []
      | None => False
      end
  | Raises _ => False
  end.
Proof.
  destruct (ROM.evaluate (DataObject:=data_object) (InDict points) trained_chain)
    as [res|e] eqn:Hres.
  - destruct (res !! "y") as [a|] eqn:Ha.
    + exact (evaluate_returns_arrays (DataObject:=data_object)
               trained_chain (InDict points) res "y" a Hres Ha).
    + vm_compute in Hres. injection Hres as <-. vm_compute in Ha. discriminate Ha.
  - vm_compute in Hres. discriminate Hres.
Defined.

Lemma evaluate_missing_key_raises_witness :
  ∃ missing,
    ROM.evaluate (DataObject:=data_object) (InDict points)
      (gauges true false false None
         [Gauge None (Some points); Gauge None (Some {[ "x" := Flat [1; 2; 3]%Z ]})])
    = Raises (Raised KeyError (MissingKey missing))
    ∧ is_Some (omap predict points !! missing)
    ∧ omap predict ({[ "x" := Flat [1; 2; 3]%Z ]} : dict Z) !! missing = None.
Proof.
  apply (evaluate_missing_key_raises (DataObject:=data_object)
           (gauges true false false None
              [Gauge None (Some points); Gauge None (Some {[ "x" := Flat [1; 2; 3]%Z ]})])
           (InDict points) points
           (Gauge None (Some points)) (Gauge None (Some {[ "x" := Flat [1; 2; 3]%Z ]})) []
           (omap predict points) (omap predict ({[ "x" := Flat [1; 2; 3]%Z ]} : dict Z))
           "y"); try reflexivity.
  exists (NdArray [3] [1; 2; 3]%Z). vm_compute. reflexivity.
Defined.

Lemma evaluate_skips_empty_result_witness :
  ROM.evaluate (DataObject:=data_object) (InDict points)
    (gauges true false false None [Gauge None (Some ∅); Gauge None (Some points)])
  = ROM.evaluate (DataObject:=data_object) (InDict points)
      (gauges true false false None [Gauge None (Some points)]).
Proof.
  exact (evaluate_skips_empty_result (DataObject:=data_object)
           (gauges true false false None [Gauge None (Some ∅); Gauge None (Some points)])
           (InDict points) points (Gauge None (Some ∅)) [Gauge None (Some points)]
           eq_refl eq_refl eq_refl eq_refl).
Defined.

Lemma evaluate_stops_at_failed_run_witness :
  ROM.evaluate (DataObject:=data_object) (InDict points)
    (gauges true false false None
       [Gauge None (Some points); Gauge None None; Gauge None (Some points)])
  = Raises (Raised RuntimeError (OtherMessage "not fitted")).
Proof.
  apply (evaluate_stops_at_failed_run (DataObject:=data_object)
           (gauges true false false None [])
           (InDict points) points
           [Gauge None (Some points)] (Gauge None None) [Gauge None (Some points)]
           (np_atleast_1d <$> omap predict points)).
  - reflexivity.
  - reflexivity.
  - vm_compute. reflexivity.
  - reflexivity.
Defined.

Lemma confidence_before_train_raises_witness :
  ROM.confidence (DataObject:=data_object) (P:=unit) (InDict points)
    (gauges false true false None [Gauge None None])
  = Raises (Raised RuntimeError (NotTrained "rom"))
  ∧ ROM.evaluate (DataObject:=data_object) (InDict points)
      (gauges false true false None [Gauge None None])
    = Raises (Raised RuntimeError (NotLoaded "rom")).
Proof.
  destruct (confidence_before_train_raises (DataObject:=data_object) (P:=unit)
              (gauges false true false None [Gauge None None])
              (InDict points) points) as [Hc He]; [reflexivity|reflexivity|].
  split; [exact Hc|exact (He eq_refl)].
Defined.

Lemma confidence_of_single_instance_witness :
  ROM.confidence (DataObject:=data_object) (P:=unit) (InDict points)
    (gauges true false false None [Gauge None (Some points)])
  = Returns (omap points_seen points)
  ∧ omap points_seen points !! "y" = Some (NdArray [] [3%Z]).
Proof.
  split; [|vm_compute; reflexivity].
  exact (confidence_of_single_instance (DataObject:=data_object) (P:=unit)
           (gauges true false false None [Gauge None (Some points)])
           (InDict points) points (Gauge None (Some points))
           (omap points_seen points) eq_refl eq_refl eq_refl eq_refl).
Defined.

Lemma confidence_chain_concatenates_witness :
  ∃ res segs a,
    ROM.confidence (DataObject:=data_object) (P:=unit) (InDict points)
      (gauges true false false None
         [Gauge None (Some points); Gauge None (Some (slice_at 0 histories))])
    = Returns res
    ∧ dom res = dom (omap points_seen points)
    ∧ Forall2 (λ r s, r !! "y" = Some s)
        [omap points_seen points; omap points_seen (slice_at 0 histories)] segs
    ∧ res !! "y" = Some a
    ∧ ravel a = concat (ravel <$> segs)
    ∧ shape a = [length (ravel a)].
Proof.
  apply (confidence_chain_concatenates (DataObject:=data_object) (P:=unit)
           (gauges true false false None
              [Gauge None (Some points); Gauge None (Some (slice_at 0 histories))])
           (InDict points) points
           (omap points_seen points) (omap points_seen (slice_at 0 histories)) []
           "y" (NdArray [] [3%Z])).
  - reflexivity.
  - reflexivity.
  - repeat constructor.
  - repeat constructor. by apply (bool_decide_unpack _).
  - vm_compute. reflexivity.
Defined.

Lemma trained_facade_round_trip_witness :
  ROM.amITrained trained_chain = true
  ∧ ∃ d', ROM.restore (DataObject:=data_object) trained_chain = Returns d'
      ∧ ROM.object_of d' = Some trained_chain.
Proof.
  split; [vm_compute; reflexivity|].
  destruct (trained_facade_round_trip (DataObject:=data_object) trained_chain)
    as (_ & d' & Hrestore & Hobject); [vm_compute; reflexivity|].
  exists d'. split; [exact Hrestore|].
  rewrite Hobject. vm_compute. reflexivity.
Defined.

Lemma untrained_restore_needs_factory_witness :
  ROM.restore (DataObject:=data_object)
    (ROM.Obj "rom" "unregistered" false false "time" false false
             [Memo false None] [] false None ∅ None : ROM.obj Z unit memo)
  = Raises (Raised KeyError (MissingKey "unregistered")).
Proof.
  exact (untrained_restore_needs_factory (DataObject:=data_object)
           (ROM.Obj "rom" "unregistered" false false "time" false false
                    [Memo false None] [] false None ∅ None : ROM.obj Z unit memo)
           (Raised KeyError (MissingKey "unregistered")) eq_refl eq_refl).
Defined.

Lemma copyModel_loads_the_argument_witness :
  let other := ROM.set_trainingSet (Some points)
                 (gauges true false false (Some 1%Z) [Gauge (Some 1%Z) (Some points)]) in
  let r := ROM._copyModel (DataObject:=data_object) tt (ROM.FromROM other)
             (gauges false true false (Some 7%Z) [Gauge None None]) in
  ROM.outcome r = Returns tt
  ∧ ROM.calls r = []
  ∧ ROM.pickled (ROM.after r) = false
  ∧ ROM.amITrained (ROM.after r) = true
  ∧ ROM.seed (ROM.after r) = Some 1%Z
  ∧ ROM.trainingSet (ROM.after r) = Some points
  ∧ ROM.supervisedContainer (ROM.after r) = [Gauge (Some 7%Z) (Some points)].
Proof.
  exact (copyModel_loads_the_argument (DataObject:=data_object) tt
           (gauges false true false (Some 7%Z) [Gauge None None])
           (ROM.set_trainingSet (Some points)
              (gauges true false false (Some 1%Z) [Gauge (Some 1%Z) (Some points)]))
           points eq_refl).
Defined.

Lemma copyModel_stops_when_train_raises_witness :
  let other := gauges true false false (Some 1%Z) [Gauge (Some 1%Z) (Some points)] in
  let self := gauges false true false (Some 7%Z) [Gauge None None] in
  ROM.outcome (ROM.train (DataObject:=data_object) (ROM.FromROM other) self)
  = Raises (Raised AttributeError (MissingAttribute "trainingSet"))
  ∧ ROM._copyModel (DataObject:=data_object) tt (ROM.FromROM other) self
    = ROM.train (DataObject:=data_object) (ROM.FromROM other) self
  ∧ ROM.pickled (ROM.after (ROM._copyModel (DataObject:=data_object) tt
                              (ROM.FromROM other) self)) = true.
Proof.
  split; [reflexivity|].
  exact (copyModel_stops_when_train_raises (DataObject:=data_object) tt
           (ROM.FromROM (gauges true false false (Some 1%Z) [Gauge (Some 1%Z) (Some points)]))
           (gauges false true false (Some 7%Z) [Gauge None None])
           (Raised AttributeError (MissingAttribute "trainingSet")) eq_refl).
Defined.

Lemma convergence_refuses_several_instances_witness :
  ROM.convergence (None : option cross_validation) (InDict points)
    (gauges true false false None [Gauge None (Some points); Gauge None (Some points)])
  = ROM.Run (Raises (Raised IOError
               (OtherMessage "Cross Validation Method is not implemented for Clustered ROMs")))
      (gauges true false false None [Gauge None (Some points); Gauge None (Some points)])
      [].
Proof.
  apply (convergence_refuses_several_instances (None : option cross_validation)
           (InDict points)
           (gauges true false false None
              [Gauge None (Some points); Gauge None (Some points)])).
  simpl. lia.
Defined.

Lemma convergence_skipped_keeps_facade_witness :
  ROM.convergence (Some (two_fold [("mse_y", 5%Z)]))
    (InDict {[ "x" := Flat [1; 2; 3]%Z ]})
    (gauges true false false None [Gauge None (Some points)])
  = ROM.Run (Returns None)
      (gauges true false false None [Gauge None (Some points)]) [].
Proof.
  apply (convergence_skipped_keeps_facade (Some (two_fold [("mse_y", 5%Z)]))
           (InDict {[ "x" := Flat [1; 2; 3]%Z ]})
           (gauges true false false None [Gauge None (Some points)])).
  - simpl. lia.
  - vm_compute. reflexivity.
Defined.

Lemma convergence_resets_then_scores_witness :
  ROM.convergence (Some (two_fold [("mse_y", 5%Z); ("mse_z", 7%Z)])) (InDict points)
    (gauges true false false None [Gauge None (Some points)])
  = ROM.Run (Returns (Some {[ "rom" := ("mse", 7%Z) ]}))
      (gauges false false false None [Gauge None None]) [].
Proof.
  pose proof (convergence_resets_then_scores
           (two_fold [("mse_y", 5%Z); ("mse_z", 7%Z)]) (InDict points)
           (gauges true false false None [Gauge None (Some points)])
           [("mse_y", 5%Z); ("mse_z", 7%Z)]
           (gauges false false false None [Gauge None None])
           ltac:(simpl; lia) ltac:(vm_compute; reflexivity) eq_refl
           ltac:(apply (bool_decide_unpack _); vm_compute; reflexivity)) as Hscore.
  vm_compute in Hscore. vm_compute. exact Hscore.
Defined.

Lemma convergence_repeated_target_raises_NameError_witness :
  ROM.convergence (Some (two_fold [("mse_y", 5%Z); ("mae_y", 6%Z)])) (InDict points)
    (gauges true false false None [Gauge None (Some points)])
  = ROM.Run (Raises (Raised (OtherException "NameError") (OtherMessage "rom")))
      (gauges false false false None [Gauge None None]) [].
Proof.
  apply (convergence_repeated_target_raises_NameError
           (two_fold [("mse_y", 5%Z); ("mae_y", 6%Z)]) (InDict points)
           (gauges true false false None [Gauge None (Some points)])
           [("mse_y", 5%Z); ("mae_y", 6%Z)]
           (gauges false false false None [Gauge None None])).
  - simpl. lia.
  - vm_compute. reflexivity.
  - reflexivity.
  - vm_compute. intros Hnodup. apply NoDup_cons in Hnodup as [Hnotin _].
    apply Hnotin. left.
Defined.

